(** * pandasai: dataset creation and loading

    A shallow embedding of [pandasai/__init__.py] ([create] and [load]) and
    of the collaborators these two functions call.  The two functions are
    transcribed statement by statement from the Python source.  The
    collaborators whose code lives in other modules of the package (the
    path helpers, the semantic layer schema, the file manager, the dataset
    loader) are modelled from the specification of the package; each such
    definition says so. *)

From Stdlib Require Import ZArith Ascii String.
From stdpp Require Import gmap strings list fin_maps.

Local Open Scope string_scope.

(** ** Python values *)

(** The values that occur in the keyword dictionaries handed to [create]
    (column, relation, source and transformation dicts) and in table cells. *)
#[warnings="-register-all"]
Inductive Value : Type :=
  | VNone
  | VBool (b : bool)
  | VInt (z : Z)
  | VStr (s : string)
  | VDict (d : list (string * Value)).

(** Python truthiness, as used by [if x] and [x or y]. *)
Definition truthy (v : Value) : bool :=
  match v with
  | VNone => false
  | VBool b => b
  | VInt z => negb (z =? 0)%Z
  | VStr s => negb (String.eqb s "")
  | VDict d => match d with [] => false | _ :: _ => true end
  end.

(** [d.get(k)] followed by a truthiness test. *)
Definition get_truthy (d : gmap string Value) (k : string) : bool :=
  match d !! k with
  | Some v => truthy v
  | None => false
  end.

(** ** Exceptions *)

Inductive Error : Type :=
  | ValueError (msg : string)
  | InvalidPathError
  | InvalidConfigError (msg : string)
  | DatasetNotFound (msg : string)
  | UnboundLocalError (var : string)
  | AttributeError
  | FileNotFoundError (path : string).

Inductive Result (A : Type) : Type :=
  | Ok (a : A)
  | Raise (e : Error).
Arguments Ok {A} a.
Arguments Raise {A} e.

Definition is_ok {A} (r : Result A) : bool :=
  match r with Ok _ => true | Raise _ => false end.

Definition is_invalid_config {A} (r : Result A) : bool :=
  match r with Raise (InvalidConfigError _) => true | _ => false end.

Definition is_dataset_not_found {A} (r : Result A) : bool :=
  match r with Raise (DatasetNotFound _) => true | _ => false end.

Definition config_error (e : Error) : Prop :=
  ∃ msg, e = InvalidConfigError msg.

(** A pure computation that may raise. *)
Definition rbind {A B} (r : Result A) (k : A → Result B) : Result B :=
  match r with
  | Ok a => k a
  | Raise e => Raise e
  end.

(** [[f(x) for x in l]]: the first failing element aborts the comprehension. *)
Fixpoint rmap {A B} (f : A → Result B) (l : list A) : Result (list B) :=
  match l with
  | [] => Ok []
  | x :: l' =>
      rbind (f x) (λ y, rbind (rmap f l') (λ ys, Ok (y :: ys)))
  end.

(** ** Strings and [os.path] *)

Module Path.

Definition sep : ascii := "/"%char.

Definition startswith_sep (s : string) : bool :=
  match s with
  | String c _ => Ascii.eqb c sep
  | EmptyString => false
  end.

Fixpoint endswith_sep (s : string) : bool :=
  match s with
  | EmptyString => false
  | String c EmptyString => Ascii.eqb c sep
  | String _ s' => endswith_sep s'
  end.

(** [posixpath.join(a, b)]: an absolute [b] discards [a]; otherwise a
    separator is inserted unless [a] is empty or already ends with one. *)
Definition join (a b : string) : string :=
  if startswith_sep b then b
  else if String.eqb a "" || endswith_sep a then a +:+ b
  else a +:+ "/" +:+ b.

(** [os.path.join(a, b, c)] folds [join] from the left. *)
Definition join3 (a b c : string) : string := join (join a b) c.

(** [s.split("/")]. *)
Fixpoint split (s : string) : list string :=
  match s with
  | EmptyString => [EmptyString]
  | String c s' =>
      if Ascii.eqb c sep then EmptyString :: split s'
      else match split s' with
           | hd :: tl => String c hd :: tl
           | [] => [String c EmptyString]
           end
  end.

Definition is_lower (c : ascii) : bool :=
  (Ascii.leb "a" c && Ascii.leb c "z")%char.
Definition is_digit (c : ascii) : bool :=
  (Ascii.leb "0" c && Ascii.leb c "9")%char.
Definition is_hyphen (c : ascii) : bool := Ascii.eqb c "-"%char.
Definition is_underscore (c : ascii) : bool := Ascii.eqb c "_"%char.

Fixpoint string_forallb (p : ascii → bool) (s : string) : bool :=
  match s with
  | EmptyString => true
  | String c s' => p c && string_forallb p s'
  end.

Fixpoint string_map (f : ascii → ascii) (s : string) : string :=
  match s with
  | EmptyString => EmptyString
  | String c s' => String (f c) (string_map f s')
  end.

(** Modelled from the spec: the path resolver of [pandasai.helpers.path]
    is not part of this file.  A segment matches [[a-z0-9][a-z0-9-]*]. *)
Definition segment_ok (s : string) : bool :=
  match s with
  | EmptyString => false
  | String c s' =>
      (is_lower c || is_digit c)
      && string_forallb (λ x, is_lower x || is_digit x || is_hyphen x) s'
  end.

(** Modelled from the spec: [get_validated_dataset_path] of
    [pandasai.helpers.path].  The path must have exactly two segments
    separated by [/], each a valid segment; otherwise [InvalidPathError]. *)
Definition get_validated_dataset_path (path : string)
  : Result (string * string) :=
  match split path with
  | [org_name; dataset_name] =>
      if segment_ok org_name && segment_ok dataset_name
      then Ok (org_name, dataset_name)
      else Raise InvalidPathError
  | _ => Raise InvalidPathError
  end.

(** Modelled from the spec: [transform_dash_to_underscore] of
    [pandasai.helpers.path] converts hyphens to underscores. *)
Definition transform_dash_to_underscore (s : string) : string :=
  string_map (λ c, if is_hyphen c then "_"%char else c) s.

(** The prefixes of [s] that stand right before a separator. *)
Fixpoint prefixes_before_sep (s : string) : list string :=
  match s with
  | EmptyString => []
  | String c s' =>
      (if Ascii.eqb c sep then [EmptyString] else [])
      ++ map (String c) (prefixes_before_sep s')
  end.

(** The directories above [s], as [os.makedirs] finds them by splitting off
    the last component again and again: the prefixes before a separator
    that are not empty and do not themselves end with a separator. *)
Definition parents (s : string) : list string :=
  filter (λ p, p ≠ EmptyString ∧ endswith_sep p = false)
    (prefixes_before_sep s).

End Path.

(** ** The semantic layer schema *)

(** Keyword dictionaries, unpacked into the model constructors. *)
Abbreviation Dict := (gmap string Value).

(** Modelled from the spec: the [Column] model of
    [pandasai.data_loader.semantic_layer_schema]: a name, a type, and an
    optional description, aggregation expression and alias. *)
Record Column : Type := mkColumn {
  col_name : string;
  col_type : string;
  col_description : option string;
  col_expression : option string;
  col_alias : option string;
}.

(** Modelled from the spec: the [Relation] model, a join edge between two
    named tables. *)
Record Relation : Type := mkRelation {
  rel_type : string;
  rel_source : string;
  rel_target : string;
}.

(** Modelled from the spec: the [Source] model, the configuration of a
    connector; beyond its type and its table it is opaque here. *)
Record Source : Type := mkSource {
  src_type : string;
  src_table : option string;
}.

(** Modelled from the spec: the [Transformation] model, the type of a
    data-shaping step and its parameter mapping. *)
Record Transformation : Type := mkTransformation {
  tr_type : string;
  tr_params : list (string * Value);
}.

Module Schema.

(** Modelled from the spec: the [SemanticLayerSchema] model, the
    descriptor of a dataset. *)
Record SemanticLayerSchema : Type := mk {
  name : string;
  description : option string;
  columns : option (list Column);
  source : option Source;
  relations : option (list Relation);
  group_by : option (list string);
  transformations : option (list Transformation);
  view : bool;
}.

(** Attribute assignment [schema.x = v]. *)
Definition set_name (n : string) (s : SemanticLayerSchema) :=
  mk n (description s) (columns s) (source s) (relations s) (group_by s)
     (transformations s) (view s).
Definition set_description (d : option string) (s : SemanticLayerSchema) :=
  mk (name s) d (columns s) (source s) (relations s) (group_by s)
     (transformations s) (view s).
Definition set_columns (c : option (list Column)) (s : SemanticLayerSchema) :=
  mk (name s) (description s) c (source s) (relations s) (group_by s)
     (transformations s) (view s).
Definition set_group_by (g : option (list string)) (s : SemanticLayerSchema) :=
  mk (name s) (description s) (columns s) (source s) (relations s) g
     (transformations s) (view s).
Definition set_transformations (t : option (list Transformation))
    (s : SemanticLayerSchema) :=
  mk (name s) (description s) (columns s) (source s) (relations s)
     (group_by s) t (view s).

End Schema.
Export Schema (SemanticLayerSchema).

(** *** Parsing the keyword dictionaries *)

Definition malformed {A} (what : string) : Result A :=
  Raise (InvalidConfigError ("malformed " +:+ what)).

(** A required string field. *)
Definition req_str (what : string) (d : Dict) (k : string) : Result string :=
  match d !! k with
  | Some (VStr s) => Ok s
  | _ => malformed what
  end.

(** An optional string field: absent or [None] gives [None]. *)
Definition opt_str (what : string) (d : Dict) (k : string)
  : Result (option string) :=
  match d !! k with
  | None | Some VNone => Ok None
  | Some (VStr s) => Ok (Some s)
  | Some _ => malformed what
  end.

(** Modelled from the spec: the [Column] model of
    [pandasai.data_loader.semantic_layer_schema], built from a keyword
    dictionary; [name] and [type] are required, the rest optional. *)
Definition Column_of (d : Dict) : Result Column :=
  rbind (req_str "column" d "name") (λ n,
  rbind (req_str "column" d "type") (λ t,
  rbind (opt_str "column" d "description") (λ de,
  rbind (opt_str "column" d "expression") (λ e,
  rbind (opt_str "column" d "alias") (λ a,
  Ok (mkColumn n t de e a)))))).

(** Modelled from the spec: the [Relation] model (a join edge between two
    named tables) built from a keyword dictionary. *)
Definition Relation_of (d : Dict) : Result Relation :=
  rbind (req_str "relation" d "type") (λ t,
  rbind (req_str "relation" d "source") (λ s,
  rbind (req_str "relation" d "target") (λ g,
  Ok (mkRelation t s g)))).

(** Modelled from the spec: the [Source] model (connector configuration
    with a type and an optional table) built from a keyword dictionary. *)
Definition Source_of (d : Dict) : Result Source :=
  rbind (req_str "source" d "type") (λ t,
  rbind (opt_str "source" d "table") (λ tb,
  Ok (mkSource t tb))).

(** Modelled from the spec: the [Transformation] model; [type] is a string
    and [params] is a mapping, whose contents are not interpreted here. *)
Definition Transformation_of (d : Dict) : Result Transformation :=
  rbind (req_str "transformation" d "type") (λ t,
  match d !! "params" with
  | Some (VDict p) => Ok (mkTransformation t p)
  | _ => malformed "transformation"
  end).

(** *** Validation *)

(** Modelled from the spec: the three kinds of dataset. *)
Inductive DatasetKind : Type :=
  | Materialized
  | SourceBacked (s : Source)
  | View (rs : list Relation).

Module Validation.
Import Schema.

(** Modelled from the spec: a column with a non-empty expression is
    aggregated, a column without one is plain. *)
Definition is_aggregated (c : Column) : bool :=
  match col_expression c with
  | Some e => negb (String.eqb e "")
  | None => false
  end.
Definition is_plain (c : Column) : bool := negb (is_aggregated c).

Definition mem (x : string) (l : list string) : bool :=
  existsb (String.eqb x) l.

Fixpoint unique (l : list string) : bool :=
  match l with
  | [] => true
  | x :: l' => negb (mem x l') && unique l'
  end.

Definition cols (s : SemanticLayerSchema) : list Column :=
  default [] (columns s).
Definition keys (s : SemanticLayerSchema) : list string :=
  default [] (group_by s).

(** Modelled from the spec: check 1, the name is a lowercase identifier
    without hyphens. *)
Definition valid_name (n : string) : bool :=
  negb (String.eqb n "")
  && Path.string_forallb
       (λ c, Path.is_lower c || Path.is_digit c || Path.is_underscore c) n.

(** The key [g] names a plain column among [cs]. *)
Definition references_plain (cs : list Column) (g : string) : bool :=
  existsb (λ c, String.eqb (col_name c) g && is_plain c) cs.

(** Modelled from the spec: check 2, column names are unique and every
    group-by entry references an existing plain column. *)
Definition columns_ok (s : SemanticLayerSchema) : bool :=
  unique (map col_name (cols s))
  && forallb (references_plain (cols s)) (keys s).

(** The column [c] is aggregated or is one of the keys [ks]. *)
Definition covered (ks : list string) (c : Column) : bool :=
  is_aggregated c || mem (col_name c) ks.

(** Modelled from the spec: check 3, if any column is aggregated then
    either the group-by list is non-empty and covers every plain column,
    or there is no plain column at all. *)
Definition aggregation_ok (s : SemanticLayerSchema) : bool :=
  if existsb is_aggregated (cols s)
  then (match keys s with [] => false | _ :: _ => true end
        && forallb (covered (keys s)) (cols s))
       || forallb is_aggregated (cols s)
  else true.

(** Modelled from the spec: check 4, the kind of the dataset; a schema
    that has both a source and the view flag determines no kind. *)
Definition kind_of (s : SemanticLayerSchema) : option DatasetKind :=
  match source s, view s with
  | Some _, true => None
  | Some src, false => Some (SourceBacked src)
  | None, true => Some (View (default [] (relations s)))
  | None, false => Some Materialized
  end.

(** Modelled from the spec: [validate] of the semantic layer schema, the
    checks in order, stopping at the first failure.  Check 5 (every
    transformation has a type and a parameter mapping) holds of every
    [Transformation] value by construction. *)
Definition validate (s : SemanticLayerSchema) : Result unit :=
  if negb (valid_name (name s)) then
    Raise (InvalidConfigError "invalid name")
  else if negb (columns_ok s) then
    Raise (InvalidConfigError "invalid columns")
  else if negb (aggregation_ok s) then
    Raise (InvalidConfigError "group_by does not cover the plain columns")
  else match kind_of s with
       | None => Raise (InvalidConfigError "conflicting dataset kind")
       | Some _ => Ok ()
       end.

End Validation.

(** ** Tables, the file system and the object store *)

(** The tabular payload of a DataFrame: column labels with their types, and
    the rows. *)
Record Table : Type := mkTable {
  header : list (string * string);
  rows : list (list Value);
}.

(** The position of a column label in a header. *)
Fixpoint position (k : string) (l : list string) : option nat :=
  match l with
  | [] => None
  | k' :: l' => if String.eqb k k' then Some 0 else S <$> position k l'
  end.

(** Modelled from the spec: the data file is read back into the column set
    that the descriptor declares, with the names and types of the
    descriptor and in its order; a file read for a descriptor that declares
    no columns keeps its own.  A declared column that the file does not
    have contributes nothing. *)
Definition select_columns (cs : option (list Column)) (t : Table) : Table :=
  match cs with
  | None => t
  | Some cs =>
      let found :=
        omap (λ c, (λ i, (c, i)) <$> position (col_name c) (header t).*1)
          cs in
      mkTable (map (λ ci : Column * nat, (col_name ci.1, col_type ci.1)) found)
        (map (λ row : list Value,
                omap (λ ci : Column * nat, row !! ci.2) found)
           (rows t))
  end.

(** What a path of the file system holds.  The descriptor file holds the
    serialised schema and the data file the columnar payload; both formats
    are taken to read back what was written. *)
Inductive Node : Type :=
  | Dir
  | YamlFile (s : SemanticLayerSchema)
  | ParquetFile (t : Table).

(** A schema is a mutable object: a DataFrame refers to its schema, and
    [create] assigns to the attributes of the object the caller passed in.
    The store maps references to the current value of each schema object. *)
Record State : Type := mkState {
  fs : gmap string Node;
  heap : list SemanticLayerSchema;
}.

(** Modelled from the spec: the [DataFrame] of [pandasai.dataframe], a
    table bound to a schema object. *)
Record DataFrame : Type := mkDataFrame {
  df_schema : nat;
  df_data : Table;
}.

(** Modelled from the spec: the [VirtualDataFrame] of
    [pandasai.dataframe], a lazily backed dataset: a schema object and no
    table yet. *)
Record VirtualDataFrame : Type := mkVirtualDataFrame {
  vdf_schema : nat;
}.

(** [Union[DataFrame, VirtualDataFrame]]. *)
Inductive Dataset : Type :=
  | Physical (d : DataFrame)
  | Virtual (v : VirtualDataFrame).

Definition dataset_schema (ds : Dataset) : nat :=
  match ds with
  | Physical d => df_schema d
  | Virtual v => vdf_schema v
  end.

(** ** Stateful computations that may raise *)

Definition M (A : Type) : Type := State → Result A * State.

Definition ret {A} (a : A) : M A := λ st, (Ok a, st).
Definition raise {A} (e : Error) : M A := λ st, (Raise e, st).
Definition bind {A B} (m : M A) (k : A → M B) : M B :=
  λ st, match m st with
        | (Ok a, st') => k a st'
        | (Raise e, st') => (Raise e, st')
        end.
Definition lift {A} (r : Result A) : M A := λ st, (r, st).

Notation "'let!' x ':=' c1 'in' c2" := (bind c1 (λ x, c2))
  (at level 10, x pattern, c1 at level 100, c2 at level 200).
Notation "c1 '>>' c2" := (bind c1 (λ _, c2))
  (at level 100, c2 at level 200, right associativity).

(** Reading an object, assigning to its attributes, creating an object. *)
Definition deref (r : nat) : M SemanticLayerSchema :=
  λ st, match heap st !! r with
        | Some s => (Ok s, st)
        | None => (Raise AttributeError, st)
        end.
Definition setattr (r : nat) (f : SemanticLayerSchema → SemanticLayerSchema)
  : M unit :=
  λ st, match heap st !! r with
        | Some s => (Ok (), mkState (fs st) (<[r := f s]> (heap st)))
        | None => (Raise AttributeError, st)
        end.
Definition new (s : SemanticLayerSchema) : M nat :=
  λ st, (Ok (length (heap st)), mkState (fs st) (heap st ++ [s])).

(** A directory at [q], unless something is there already. *)
Definition ensure_dir (q : string) (m : gmap string Node)
  : gmap string Node :=
  match m !! q with
  | Some _ => m
  | None => <[q := Dir]> m
  end.

(** Modelled from the spec: what the [mkdir] of the file manager does to the
    file system.  Like [os.makedirs(p, exist_ok=True)] it makes the
    directory [p] and every missing directory above it, and it is
    idempotent: what is present is left as it is.  The spec gives [mkdir]
    no failure, so none is modelled for a path that holds a file. *)
Definition mkdir_fs (p : string) (m : gmap string Node) : gmap string Node :=
  foldr ensure_dir m (p :: Path.parents p).

(** [os.path.exists] and writing a file of the host file system. *)
Definition os_path_exists (p : string) : M bool :=
  λ st, (Ok (bool_decide (is_Some (fs st !! p))), st).
Definition put_file (p : string) (n : Node) : M unit :=
  λ st, (Ok (), mkState (<[p := n]> (fs st)) (heap st)).

(** ** The package *)

Section Pandasai.

(** The project root found by [find_project_root()]. *)
Variable find_project_root : string.

(** [sanitize_sql_table_name] of [pandasai.helpers.sql_sanitizer], a pure
    naming utility. *)
Variable sanitize_sql_table_name : string → string.

(** The interpretation of one transformation on a table, which belongs to
    the transformation manager. *)
Variable apply_transformation : Transformation → Table → Table.

(** *** The file manager *)

(** Modelled from the spec: the file manager of the process-wide
    configuration, here the local one.  Its paths are relative to the
    storage root, which [load] gives as the [datasets] directory under the
    project root. *)
Definition abs_path (path : string) : string :=
  Path.join3 find_project_root "datasets" path.

(** Modelled from the spec: [file_manager.exists(path)]. *)
Definition fm_exists (path : string) : M bool :=
  os_path_exists (abs_path path).

(** Modelled from the spec: [file_manager.mkdir(path)], idempotent when the
    directory is already present. *)
Definition fm_mkdir (path : string) : M unit :=
  λ st, (Ok (), mkState (mkdir_fs (abs_path path) (fs st)) (heap st)).

(** Modelled from the spec: [file_manager.write(path, content)]. *)
Definition fm_write (path : string) (content : SemanticLayerSchema)
  : M unit :=
  put_file (abs_path path) (YamlFile content).

(** Modelled from the spec: [schema.to_yaml()] serialises the current value
    of the schema object. *)
Definition to_yaml (schema : nat) : M SemanticLayerSchema := deref schema.

(** [df.to_parquet(path, index=False)]. *)
Definition to_parquet (df : DataFrame) (p : string) : M unit :=
  put_file p (ParquetFile (df_data df)).

(** Modelled from the spec: [SemanticLayerSchema.model_validate(schema)]
    validates the current value of the schema object. *)
Definition model_validate (schema : nat) : M unit :=
  let! s := deref schema in lift (Validation.validate s).

(** Modelled from the spec: the constructor [SemanticLayerSchema(...)]
    validates the new object before it exists. *)
Definition SemanticLayerSchema_new (s : SemanticLayerSchema) : M nat :=
  lift (Validation.validate s) >> new s.

(** *** The dataset loader *)

(** Modelled from the spec: a [DatasetLoader] of
    [pandasai.data_loader.loader] holds a schema object and the path of the
    dataset. *)
Record DatasetLoader : Type := mkLoader {
  loader_schema : nat;
  loader_path : string;
}.

(** The directory of a dataset and its two artifacts, relative to the
    storage root. *)
Definition dataset_directory_of (org_name dataset_name : string) : string :=
  Path.join org_name dataset_name.
Definition schema_path_of (dataset_directory : string) : string :=
  Path.join dataset_directory "schema.yaml".
Definition parquet_file_path_of (dataset_directory : string) : string :=
  Path.join dataset_directory "data.parquet".

(** Modelled from the spec: [DatasetLoader.create_loader_from_schema],
    used right after creation with the schema already in memory. *)
Definition create_loader_from_schema (schema : nat) (path : string)
  : M DatasetLoader :=
  ret (mkLoader schema path).

(** Modelled from the spec: [DatasetLoader.create_loader_from_path] reads
    the descriptor at the resolved location, fails with [DatasetNotFound]
    when there is none, validates it again and sanitises its name before
    dispatch. *)
Definition create_loader_from_path (path : string) : M DatasetLoader :=
  let! (org_name, dataset_name) :=
    lift (Path.get_validated_dataset_path path) in
  let schema_path :=
    schema_path_of (dataset_directory_of org_name dataset_name) in
  λ st,
    match fs st !! abs_path schema_path with
    | None => (Raise (DatasetNotFound "Dataset not found!"), st)
    | Some (YamlFile s) =>
        (lift (Validation.validate s) >>
         let! schema :=
           new (Schema.set_name (sanitize_sql_table_name (Schema.name s)) s) in
         ret (mkLoader schema path)) st
    | Some _ => (malformed "descriptor", st)
    end.

(** The transformation list, applied in declared order. *)
Definition apply_transformations (ts : option (list Transformation))
    (t : Table) : Table :=
  fold_left (λ acc tr, apply_transformation tr acc) (default [] ts) t.

(** Reading the columnar artifact back. *)
Definition read_parquet (p : string) : M Table :=
  λ st, match fs st !! p with
        | Some (ParquetFile t) => (Ok t, st)
        | _ => (Raise (FileNotFoundError p), st)
        end.

(** Modelled from the spec: [DatasetLoader.load] dispatches on the kind of
    the schema.  A materialized dataset reads the columnar artifact into
    the columns that the schema declares and applies the transformations in
    declared order; a source-backed dataset or a view gives a lazily backed
    object, whose data is resolved on first access and not here.  The
    loader fails on a schema of no kind, on a malformed path and on a
    missing data file; what the reader or a transformation may raise on the
    data itself is not modelled. *)
Definition loader_load (loader : DatasetLoader) : M Dataset :=
  let! s := deref (loader_schema loader) in
  match Validation.kind_of s with
  | None => lift (malformed "schema")
  | Some Materialized =>
      let! (org_name, dataset_name) :=
        lift (Path.get_validated_dataset_path (loader_path loader)) in
      let parquet_file_path :=
        parquet_file_path_of (dataset_directory_of org_name dataset_name) in
      let! t := read_parquet (abs_path parquet_file_path) in
      ret (Physical
             (mkDataFrame (loader_schema loader)
                (apply_transformations (Schema.transformations s)
                   (select_columns (Schema.columns s) t))))
  | Some (SourceBacked _) | Some (View _) =>
      ret (Virtual (mkVirtualDataFrame (loader_schema loader)))
  end.

(** *** [create] *)

(** A list comprehension building one model per dictionary, guarded by
    [if xs else None]: an empty list is treated like an omitted one. *)
Definition parse_all {A} (f : Dict → Result A) (xs : option (list Dict))
  : Result (option (list A)) :=
  match xs with
  | Some (x :: xs') => rbind (rmap f (x :: xs')) (λ l, Ok (Some l))
  | Some [] | None => Ok None
  end.

(** [description or schema.description]. *)
Definition or_description (description old : option string) : option string :=
  match description with
  | Some d => if String.eqb d "" then old else Some d
  | None => old
  end.

(** The argument [df] has the type [Optional[DataFrame]], so the
    [isinstance] guard that opens the function never fires.  The [print]
    has no effect on the state modelled here.  The local variable
    [schema] is bound in three of the four branches; it is [None] below
    where Python leaves it unbound. *)
Definition create
    (path : string)
    (df : option DataFrame)
    (description : option string)
    (columns : option (list Dict))
    (source : option Dict)
    (relations : option (list Dict))
    (view : bool)
    (group_by : option (list string))
    (transformations : option (list Dict)) : M Dataset :=
  let! (org_name, dataset_name) :=
    lift (Path.get_validated_dataset_path path) in
  let underscore_dataset_name :=
    Path.transform_dash_to_underscore dataset_name in
  let dataset_directory := dataset_directory_of org_name dataset_name in
  let schema_path := schema_path_of dataset_directory in
  let parquet_file_path := parquet_file_path_of dataset_directory in
  let! dir_exists := fm_exists dataset_directory in
  let! schema_exists := fm_exists schema_path in
  if dir_exists && schema_exists then
    raise (ValueError ("Dataset already exists at path: " +:+ path))
  else
  fm_mkdir dataset_directory >>
  if bool_decide (df = None) && bool_decide (source = None) && negb view then
    raise (InvalidConfigError
             "Please provide either a DataFrame, a Source or a View")
  else
  let! parsed_transformations :=
    lift (parse_all Transformation_of transformations) in
  let! parsed_columns := lift (parse_all Column_of columns) in
  let! schema :=
    match df with
    | Some df =>
        let schema := df_schema df in
        setattr schema (Schema.set_name underscore_dataset_name) >>
        setattr schema (Schema.set_transformations parsed_transformations) >>
        (match parsed_columns with
         | Some (_ :: _) => setattr schema (Schema.set_columns parsed_columns)
         | _ => ret ()
         end) >>
        (match group_by with
         | Some _ => setattr schema (Schema.set_group_by group_by)
         | None => ret ()
         end) >>
        model_validate schema >>
        let parquet_file_path_abs_path := abs_path parquet_file_path in
        to_parquet df parquet_file_path_abs_path >>
        ret (Some schema)
    | None =>
        if view then
          let! _relation := lift (rmap Relation_of (default [] relations)) in
          let! schema :=
            SemanticLayerSchema_new
              (Schema.mk underscore_dataset_name None parsed_columns None
                 (Some _relation) group_by parsed_transformations true) in
          ret (Some schema)
        else
          match source with
          | None => raise AttributeError
          | Some source =>
              if get_truthy source "table" then
                let! src := lift (Source_of source) in
                let! schema :=
                  SemanticLayerSchema_new
                    (Schema.mk underscore_dataset_name None parsed_columns
                       (Some src) None group_by parsed_transformations
                       false) in
                ret (Some schema)
              else ret None
          end
    end in
  let! schema :=
    match schema with
    | Some schema => ret schema
    | None => raise (UnboundLocalError "schema")
    end in
  let! s := deref schema in
  setattr schema
    (Schema.set_description
       (or_description description (Schema.description s))) >>
  let! yaml := to_yaml schema in
  fm_write schema_path yaml >>
  let! s := deref schema in
  setattr schema (Schema.set_name (sanitize_sql_table_name (Schema.name s))) >>
  let! loader := create_loader_from_schema schema path in
  loader_load loader.

(** *** [load] *)

Definition load (dataset_path : string) : M Dataset :=
  lift (Path.get_validated_dataset_path dataset_path) >>
  let dataset_full_path :=
    Path.join3 find_project_root "datasets" dataset_path in
  let! local_dataset_exists := os_path_exists dataset_full_path in
  if negb local_dataset_exists then
    raise (DatasetNotFound "Dataset not found!")
  else
  let! loader := create_loader_from_path dataset_path in
  let! df := loader_load loader in
  ret df.

(** *** Vocabulary of the statements below *)

(** The test that guards [create] against an existing dataset. *)
Definition already_exists (st : State) (org_name dataset_name : string)
  : bool :=
  let dataset_directory := dataset_directory_of org_name dataset_name in
  bool_decide (is_Some (fs st !! abs_path dataset_directory))
  && bool_decide
       (is_Some (fs st !! abs_path (schema_path_of dataset_directory))).

(** The file system once [create] has made the dataset directory. *)
Definition fs_with_directory (st : State) (org_name dataset_name : string)
  : gmap string Node :=
  mkdir_fs (abs_path (dataset_directory_of org_name dataset_name)) (fs st).

(** The attribute assignments that [create] performs on the schema of the
    DataFrame it is given, before it validates the schema. *)
Definition df_overrides (underscore_dataset_name : string)
    (parsed_transformations : option (list Transformation))
    (parsed_columns : option (list Column))
    (group_by : option (list string))
    (s : SemanticLayerSchema) : SemanticLayerSchema :=
  Schema.mk underscore_dataset_name (Schema.description s)
    (match parsed_columns with
     | Some (_ :: _) => parsed_columns
     | _ => Schema.columns s
     end)
    (Schema.source s) (Schema.relations s)
    (match group_by with
     | Some _ => group_by
     | None => Schema.group_by s
     end)
    parsed_transformations (Schema.view s).

(** The two assignments that follow the construction of the schema: the
    description before the descriptor is written, the name after. *)
Definition described (description : option string) (s : SemanticLayerSchema)
  : SemanticLayerSchema :=
  Schema.set_description
    (or_description description (Schema.description s)) s.
Definition sanitized (s : SemanticLayerSchema) : SemanticLayerSchema :=
  Schema.set_name (sanitize_sql_table_name (Schema.name s)) s.

(** The state in which [create] hands the schema to the loader: the
    descriptor is on disk and the schema object carries its final name. *)
Definition persisted (files : gmap string Node)
    (objects : list SemanticLayerSchema)
    (org_name dataset_name : string) (schema : nat)
    (description : option string) (s : SemanticLayerSchema) : State :=
  mkState
    (<[abs_path (schema_path_of (dataset_directory_of org_name dataset_name))
       := YamlFile (described description s)]> files)
    (<[schema := sanitized (described description s)]> objects).

(** The dataset that the loader gives for the schema of a DataFrame whose
    payload [t] was written to the data file. *)
Definition df_result (schema : nat) (s : SemanticLayerSchema) (t : Table)
  : Dataset :=
  match Validation.kind_of s with
  | Some Materialized =>
      Physical
        (mkDataFrame schema
           (apply_transformations (Schema.transformations s)
              (select_columns (Schema.columns s) t)))
  | _ => Virtual (mkVirtualDataFrame schema)
  end.

(** The errors with which [create] turns down a call once the path is
    resolved and no dataset is in the way. *)
Definition rejection (e : Error) : Prop :=
  config_error e ∨ e = AttributeError ∨ e = UnboundLocalError "schema".

(** The four ways in which a call of [create] ends: the result and the
    final state, for a given path, description and initial state. *)
Inductive Outcome (path : string) (description : option string) (st : State)
  : Result Dataset → State → Prop :=
  | InvalidPath e :
      Path.get_validated_dataset_path path = Raise e →
      Outcome path description st (Raise e) st
  | AlreadyExists o d :
      Path.get_validated_dataset_path path = Ok (o, d) →
      already_exists st o d = true →
      Outcome path description st
        (Raise (ValueError ("Dataset already exists at path: " +:+ path)))
        st
  | Rejected o d e objects :
      Path.get_validated_dataset_path path = Ok (o, d) →
      already_exists st o d = false →
      rejection e →
      Outcome path description st (Raise e)
        (mkState (fs_with_directory st o d) objects)
  | Created o d ds s files objects :
      Path.get_validated_dataset_path path = Ok (o, d) →
      already_exists st o d = false →
      Validation.validate s = Ok () →
      Schema.name s = Path.transform_dash_to_underscore d →
      is_Some (objects !! dataset_schema ds) →
      (files = fs_with_directory st o d
       ∨ ∃ t, files
              = <[abs_path
                    (parquet_file_path_of (dataset_directory_of o d))
                  := ParquetFile t]> (fs_with_directory st o d)) →
      Outcome path description st (Ok ds)
        (persisted files objects o d (dataset_schema ds) description s).

End Pandasai.

(** ** The conversation entry points *)

Section Conversation.

(** The agent of [pandasai.agent], the sandbox and what the agent answers
    are opaque here.  Building an agent may raise; so may its two methods,
    which also change the agent. *)
Variable Agent : Type.
Variable Sandbox : Type.
Variable Response : Type.
Variable Agent_new : list DataFrame → option Sandbox → Result Agent.
Variable Agent_chat : Agent → string → Result Response * Agent.
Variable Agent_follow_up : Agent → string → Result Response * Agent.

(** The module starts with [_current_agent = None]. *)
Definition initial_agent : option Agent := None.

(** [chat(query, *dataframes, sandbox=None)] over the global
    [_current_agent].  The global is assigned before the query is put to
    the new agent, so it holds the new agent even when the query raises; it
    is not assigned when the guard or the constructor raises. *)
Definition chat (query : string) (dataframes : list DataFrame)
    (sandbox : option Sandbox) (_current_agent : option Agent)
  : Result Response * option Agent :=
  match dataframes with
  | [] =>
      (Raise (ValueError "At least one dataframe must be provided."),
       _current_agent)
  | _ :: _ =>
      match Agent_new dataframes sandbox with
      | Raise e => (Raise e, _current_agent)
      | Ok agent =>
          let '(result, agent') := Agent_chat agent query in
          (result, Some agent')
      end
  end.

(** [follow_up(query)]. *)
Definition follow_up (query : string) (_current_agent : option Agent)
  : Result Response * option Agent :=
  match _current_agent with
  | None =>
      (Raise (ValueError
                ("No existing conversation. "
                 +:+ "Please use chat() to start a new conversation.")),
       None)
  | Some agent =>
      let '(result, agent') := Agent_follow_up agent query in
      (result, Some agent')
  end.

(** A call of one of the two entry points, and the global after a sequence
    of calls. *)
Inductive Call : Type :=
  | Chat (query : string) (dataframes : list DataFrame)
         (sandbox : option Sandbox)
  | FollowUp (query : string).

Definition call (c : Call) (_current_agent : option Agent)
  : Result Response * option Agent :=
  match c with
  | Chat query dataframes sandbox =>
      chat query dataframes sandbox _current_agent
  | FollowUp query => follow_up query _current_agent
  end.

Definition run (calls : list Call) (_current_agent : option Agent)
  : option Agent :=
  fold_left (λ agent c, (call c agent).2) calls _current_agent.

(** A call that cannot start a conversation: a follow-up, a chat without
    dataframes, or a chat whose agent cannot be built. *)
Definition starts_nothing (c : Call) : Prop :=
  match c with
  | Chat _ dataframes sandbox =>
      dataframes = [] ∨ is_ok (Agent_new dataframes sandbox) = false
  | FollowUp _ => True
  end.

End Conversation.

(** ** A concrete configuration *)

(** Two file systems hold the same files when they agree on every node that
    is not a directory. *)
Definition same_files (m m' : gmap string Node) : Prop :=
  ∀ p n, n ≠ Dir → m !! p = Some n ↔ m' !! p = Some n.

Module Example.

Definition project_root : string := "/srv/app".

Definition is_upper (c : ascii) : bool :=
  (Ascii.leb "A" c && Ascii.leb c "Z")%char.
Definition to_lower (c : ascii) : ascii :=
  if is_upper c then ascii_of_nat (nat_of_ascii c + 32) else c.

(** Modelled from the spec: [sanitize_sql_table_name] lowercases the name
    and normalises its characters: whatever is not a letter, a digit or
    an underscore becomes an underscore. *)
Definition sanitize_sql_table_name (n : string) : string :=
  Path.string_map
    (λ c, let c' := to_lower c in
          if Path.is_lower c' || Path.is_digit c' || Path.is_underscore c'
          then c' else "_"%char) n.

Fixpoint assoc (k : string) (l : list (string * Value)) : option Value :=
  match l with
  | [] => None
  | (k', v) :: l' => if String.eqb k k' then Some v else assoc k l'
  end.

Fixpoint index_of (k : string) (l : list string) : option nat :=
  match l with
  | [] => None
  | k' :: l' => if String.eqb k k' then Some 0 else S <$> index_of k l'
  end.

(** Modelled from the spec: [fill_na] replaces the missing values of a
    column by the given value. *)
Definition fill_na (column : string) (value : Value) (t : Table) : Table :=
  match index_of column (map fst (header t)) with
  | Some i =>
      mkTable (header t)
        (map (λ row : list Value,
                match row !! i with
                | Some VNone => <[i := value]> row
                | _ => row
                end) (rows t))
  | None => t
  end.

(** The transformations other than [fill_na] are left uninterpreted. *)
Definition apply_transformation (tr : Transformation) (t : Table) : Table :=
  if String.eqb (tr_type tr) "fill_na" then
    match assoc "column" (tr_params tr), assoc "value" (tr_params tr) with
    | Some (VStr c), Some v => fill_na c v t
    | _, _ => t
    end
  else t.

(** A three-row table with the columns [category] and [amount], one
    amount missing, and the schema that the DataFrame carries for it. *)
Definition sales_table : Table :=
  mkTable [("category", "string"); ("amount", "integer")]
    [[VStr "books"; VInt 10]; [VStr "games"; VNone]; [VStr "books"; VInt 5]].

Definition category : Column := mkColumn "category" "string" None None None.
Definition region : Column := mkColumn "region" "string" None None None.
Definition amount : Column := mkColumn "amount" "integer" None None None.
Definition total : Column :=
  mkColumn "amount" "integer" None (Some "sum(amount)") (Some "total").

Definition sales_schema : SemanticLayerSchema :=
  Schema.mk "table_sales" None (Some [category; amount]) None None None None
    false.

Definition sales_df : DataFrame := mkDataFrame 0 sales_table.

(** No dataset on disk; the schema object of [sales_df] in the store. *)
Definition st0 : State := mkState ∅ [sales_schema].

Definition orders_source : Dict :=
  {[ "type" := VStr "postgres"; "table" := VStr "orders" ]}.
Definition untabled_source : Dict := {[ "type" := VStr "postgres" ]}.
Definition orders_relation : Dict :=
  {[ "type" := VStr "one-to-many";
     "source" := VStr "customers.id";
     "target" := VStr "orders.customer_id" ]}.
Definition fill_amount : Dict :=
  {[ "type" := VStr "fill_na";
     "params" := VDict [("column", VStr "amount"); ("value", VInt 0)] ]}.

Definition category_dict : Dict :=
  {[ "name" := VStr "category"; "type" := VStr "string" ]}.
Definition total_dict : Dict :=
  {[ "name" := VStr "amount"; "type" := VStr "integer";
     "expression" := VStr "sum(amount)"; "alias" := VStr "total" ]}.

Definition create :=
  create project_root sanitize_sql_table_name apply_transformation.
Definition load :=
  load project_root sanitize_sql_table_name apply_transformation.

(** A schema with one aggregated column and two plain ones. *)
Definition report_schema : SemanticLayerSchema :=
  Schema.mk "report" None (Some [region; category; total]) None None None
    None false.
Definition grouped_schema : SemanticLayerSchema :=
  Schema.mk "report" None (Some [category; total]) None None None None
    false.

End Example.

(** A stand-in for the agent, to have the statements about the conversation
    at a concrete input: it keeps its dataframes and the queries put to it,
    answers with their number, and refuses the empty query. *)
Module ExampleAgent.

Definition Agent : Type := list DataFrame * list string.

Definition Agent_new (dataframes : list DataFrame) (sandbox : option unit)
  : Result Agent :=
  Ok (dataframes, []).

Definition ask (agent : Agent) (query : string) : Result nat * Agent :=
  let agent' := (agent.1, query :: agent.2) in
  if String.eqb query "" then (Raise (ValueError "empty query"), agent')
  else (Ok (length agent'.2), agent').

Definition chat := chat Agent unit nat Agent_new ask.
Definition follow_up := follow_up Agent nat ask.
Definition run := run Agent unit nat Agent_new ask ask.

End ExampleAgent.

(** * Properties *)

Lemma same_files_refl m : same_files m m.
Proof. by intros p n _. Qed.

Lemma same_files_trans m1 m2 m3 :
  same_files m1 m2 → same_files m2 m3 → same_files m1 m3.
Proof. intros H1 H2 p n Hn. by rewrite (H1 p n Hn), (H2 p n Hn). Qed.

Lemma same_files_ensure_dir q m : same_files m (ensure_dir q m).
Proof.
  unfold ensure_dir. destruct (m !! q) eqn:Hq; [apply same_files_refl|].
  intros p n Hn. destruct (decide (q = p)) as [<-|Hne].
  - rewrite lookup_insert_eq, Hq. split; [done|]. by intros [= <-].
  - by rewrite lookup_insert_ne.
Qed.

Lemma ensure_dir_is_Some q m : is_Some (ensure_dir q m !! q).
Proof.
  unfold ensure_dir. destruct (m !! q) eqn:Hq; [by rewrite Hq|].
  by rewrite lookup_insert_eq.
Qed.

Lemma ensure_dir_lookup_ne p q (m : gmap string Node) :
  p ≠ q → ensure_dir q m !! p = m !! p.
Proof.
  intros Hne. unfold ensure_dir. destruct (m !! q); [done|].
  by rewrite lookup_insert_ne.
Qed.

Lemma same_files_mkdir p m : same_files m (mkdir_fs p m).
Proof.
  unfold mkdir_fs. induction (p :: Path.parents p) as [|q qs IH]; cbn [foldr].
  - apply same_files_refl.
  - eapply same_files_trans; [exact IH|apply same_files_ensure_dir].
Qed.

Lemma mkdir_fs_is_Some p m : is_Some (mkdir_fs p m !! p).
Proof. unfold mkdir_fs. cbn [foldr]. apply ensure_dir_is_Some. Qed.

Lemma insert_is_Some_mono (m : gmap string Node) p q n :
  is_Some (m !! q) → is_Some (<[p := n]> m !! q).
Proof. intros H. rewrite lookup_insert_is_Some'. by right. Qed.

(** ** Paths *)

Module PathFacts.
Import Path.

Lemma segment_char_not_sep c :
  is_lower c || is_digit c || is_hyphen c = true → Ascii.eqb c sep = false.
Proof. destruct c as [[] [] [] [] [] [] [] []]; vm_compute; congruence. Qed.

Lemma forallb_endswith_sep s :
  string_forallb (λ x, is_lower x || is_digit x || is_hyphen x) s = true →
  endswith_sep s = false.
Proof.
  induction s as [|c s IH]; simpl; [done|].
  intros [Hc Hs]%andb_prop. destruct s as [|c' s'].
  - by apply segment_char_not_sep.
  - by apply IH.
Qed.

Lemma segment_ok_shape s :
  segment_ok s = true →
  s ≠ "" ∧ startswith_sep s = false ∧ endswith_sep s = false.
Proof.
  destruct s as [|c s]; simpl; [done|].
  intros [Hc Hs]%andb_prop.
  assert (Hc' : is_lower c || is_digit c || is_hyphen c = true)
    by (by rewrite Hc).
  split_and!; [done|by apply segment_char_not_sep|].
  apply (forallb_endswith_sep (String c s)). simpl. by rewrite Hc', Hs.
Qed.

Lemma split_nonempty s : split s ≠ [].
Proof.
  destruct s as [|c s]; simpl; [done|].
  destruct (Ascii.eqb c sep); [done|]. by destruct (split s).
Qed.

Lemma split_one s d : split s = [d] → s = d.
Proof.
  revert d. induction s as [|c s IH]; simpl; intros d.
  - congruence.
  - destruct (Ascii.eqb c sep).
    + intros [= _ H]. by apply split_nonempty in H.
    + destruct (split s) as [|hd tl] eqn:Hs; [by apply split_nonempty in Hs|].
      intros [= <- ->]. by rewrite (IH hd).
Qed.

Lemma split_two s o d : split s = [o; d] → s = o +:+ "/" +:+ d.
Proof.
  revert o. induction s as [|c s IH]; simpl; intros o.
  - congruence.
  - destruct (Ascii.eqb c sep) eqn:Hc.
    + apply Ascii.eqb_eq in Hc as ->.
      intros [= <- H]. by rewrite (split_one _ _ H).
    + destruct (split s) as [|hd tl] eqn:Hs; [by apply split_nonempty in Hs|].
      intros [= <- ->]. by rewrite (IH hd).
Qed.

Lemma join_segments o d :
  segment_ok o = true → segment_ok d = true → join o d = o +:+ "/" +:+ d.
Proof.
  intros (Ho & _ & He)%segment_ok_shape (_ & Hd & _)%segment_ok_shape.
  unfold join. rewrite Hd, He.
  destruct o; [done|]. done.
Qed.

(** A validated path is the directory that its two segments name. *)
Lemma validated_directory path o d :
  get_validated_dataset_path path = Ok (o, d) → join o d = path.
Proof.
  unfold get_validated_dataset_path.
  destruct (split path) as [|o' [|d' [|? ?]]] eqn:Hs; try congruence.
  destruct (segment_ok o' && segment_ok d') eqn:Hok; [|congruence].
  intros [= <- <-]. apply andb_prop in Hok as [Ho Hd].
  rewrite join_segments by done. symmetry. by apply split_two.
Qed.

Lemma join_inj_r a b1 b2 :
  startswith_sep b1 = startswith_sep b2 → join a b1 = join a b2 → b1 = b2.
Proof.
  unfold join. intros ->. destruct (startswith_sep b2); [done|].
  destruct (String.eqb a "" || endswith_sep a).
  - apply String.app_inj.
  - intros H%String.app_inj. by injection H.
Qed.

Lemma startswith_join d n1 n2 :
  startswith_sep n1 = false → startswith_sep n2 = false →
  startswith_sep (join d n1) = startswith_sep (join d n2).
Proof.
  unfold join. intros H1 H2. rewrite H1, H2. destruct d as [|c d].
  - change (startswith_sep n1 = startswith_sep n2). congruence.
  - by destruct (String.eqb (String c d) "" || endswith_sep (String c d)).
Qed.

(** The descriptor and the data file of a dataset are different files. *)
Lemma artifacts_distinct a d :
  join a (join d "schema.yaml") ≠ join a (join d "data.parquet").
Proof.
  intros H. apply join_inj_r in H; [|by apply startswith_join].
  by apply join_inj_r in H.
Qed.

End PathFacts.

(** ** Validation and parsing *)

Module ValidationFacts.
Import Schema Validation.

Lemma malformed_config {A} what (e : Error) :
  @malformed A what = Raise e → config_error e.
Proof. intros [= <-]. by eexists. Qed.

Lemma req_str_config what d k e : req_str what d k = Raise e → config_error e.
Proof.
  unfold req_str. repeat case_match; try done; apply malformed_config.
Qed.

Lemma opt_str_config what d k e : opt_str what d k = Raise e → config_error e.
Proof.
  unfold opt_str. repeat case_match; try done; apply malformed_config.
Qed.

Ltac parse_config :=
  repeat match goal with
  | |- rbind ?r _ = Raise _ → _ =>
      let H := fresh in
      destruct r eqn:H; cbn [rbind];
      [|intros [= <-];
        first [ by eapply req_str_config | by eapply opt_str_config ]]
  end.

Lemma Column_of_config d e : Column_of d = Raise e → config_error e.
Proof. unfold Column_of. parse_config. done. Qed.

Lemma Relation_of_config d e : Relation_of d = Raise e → config_error e.
Proof. unfold Relation_of. parse_config. done. Qed.

Lemma Source_of_config d e : Source_of d = Raise e → config_error e.
Proof. unfold Source_of. parse_config. done. Qed.

Lemma Transformation_of_config d e :
  Transformation_of d = Raise e → config_error e.
Proof.
  unfold Transformation_of. parse_config.
  repeat case_match; try done; apply malformed_config.
Qed.

Lemma rmap_config {A B} (f : A → Result B) l e :
  (∀ x e', f x = Raise e' → config_error e') →
  rmap f l = Raise e → config_error e.
Proof.
  intros Hf. induction l as [|x l IH]; cbn [rmap]; [done|].
  destruct (f x) eqn:Hx; cbn [rbind]; [|intros [= <-]; by eapply Hf].
  destruct (rmap f l); cbn [rbind]; [done|]. intros [= <-]. by apply IH.
Qed.

Lemma parse_all_config {A} (f : Dict → Result A) xs e :
  (∀ x e', f x = Raise e' → config_error e') →
  parse_all f xs = Raise e → config_error e.
Proof.
  intros Hf. unfold parse_all. destruct xs as [[|x xs]|]; try done.
  destruct (rmap f (x :: xs)) eqn:Hr; cbn [rbind]; [done|].
  intros [= <-]. by eapply rmap_config.
Qed.

(** An empty list of dictionaries is parsed like an omitted one. *)
Lemma parse_all_empty {A} (f : Dict → Result A) :
  parse_all f (Some []) = Ok None ∧ parse_all f None = Ok None.
Proof. done. Qed.

Lemma validate_config s e : validate s = Raise e → config_error e.
Proof.
  unfold validate. repeat case_match; try done; intros [= <-]; by eexists.
Qed.

Lemma validate_ok_kind s : validate s = Ok () → kind_of s ≠ None.
Proof. unfold validate. repeat case_match; done. Qed.

(** The description plays no part in validation. *)
Lemma validate_set_description de s :
  validate (set_description de s) = validate s.
Proof. done. Qed.

Lemma mem_elem_of x l : mem x l = true ↔ x ∈ l.
Proof.
  unfold mem. rewrite existsb_exists, list_elem_of_In. split.
  - by intros (y & Hy & ->%String.eqb_eq).
  - intros Hx. exists x. by rewrite String.eqb_refl.
Qed.

End ValidationFacts.

(** ** Running the computations step by step *)

Lemma bind_lift_ok {A B} (r : Result A) (a : A) (k : A → M B) st :
  r = Ok a → bind (lift r) k st = k a st.
Proof. by intros ->. Qed.

Lemma bind_lift_raise {A B} (r : Result A) e (k : A → M B) st :
  r = Raise e → bind (lift r) k st = (Raise e, st).
Proof. by intros ->. Qed.

Lemma bind_deref {B} r s (k : SemanticLayerSchema → M B) st :
  heap st !! r = Some s → bind (deref r) k st = k s st.
Proof. intros H. unfold bind, deref. by rewrite H. Qed.

Lemma bind_setattr {B} r f s (k : unit → M B) st :
  heap st !! r = Some s →
  bind (setattr r f) k st = k () (mkState (fs st) (<[r := f s]> (heap st))).
Proof. intros H. unfold bind, setattr. by rewrite H. Qed.

Lemma lookup_insert_same (h : list SemanticLayerSchema) r s s' :
  h !! r = Some s → <[r := s']> h !! r = Some s'.
Proof. intros H. apply list_lookup_insert_eq. by eapply lookup_lt_Some. Qed.


Lemma bind_assoc {A B C} (m : M A) (k : A → M B) (k' : B → M C) st :
  bind (bind m k) k' st = bind m (λ a, bind (k a) k') st.
Proof. unfold bind. by destruct (m st) as [[a|e] st']. Qed.

Lemma bind_ret {A B} (a : A) (k : A → M B) st : bind (ret a) k st = k a st.
Proof. done. Qed.

Lemma bind_ret_r {A} (m : M A) st : bind m (λ x, ret x) st = m st.
Proof. unfold bind. by destruct (m st) as [[a|e] st']. Qed.

Lemma bind_put_file {B} p n (k : unit → M B) st :
  bind (put_file p n) k st = k () (mkState (<[p := n]> (fs st)) (heap st)).
Proof. done. Qed.

Lemma bind_new {B} s (k : nat → M B) st :
  bind (new s) k st
  = k (length (heap st)) (mkState (fs st) (heap st ++ [s])).
Proof. done. Qed.

Lemma lookup_new (h : list SemanticLayerSchema) s :
  (h ++ [s])%list !! length h = Some s.
Proof. by rewrite lookup_app_r, Nat.sub_diag. Qed.

Ltac heap_lookup :=
  cbn [heap fs];
  first [ eassumption
        | apply lookup_new
        | eapply lookup_insert_same; heap_lookup ].

Ltac exec_step :=
  first
    [ rewrite bind_assoc
    | rewrite bind_ret
    | rewrite bind_put_file
    | rewrite bind_new
    | erewrite bind_setattr by heap_lookup
    | erewrite bind_deref by heap_lookup ].

Ltac exec := repeat (exec_step; cbn [heap fs]).

Ltac enter Hp Hex :=
  unfold create;
  rewrite (bind_lift_ok _ _ _ _ Hp);
  unfold fm_exists, os_path_exists; unfold bind at 1 2;
  unfold already_exists in Hex; rewrite Hex;
  unfold fm_mkdir; unfold bind at 1.


Section Exec.
Variable root : string.
Variable sanitize : string → string.
Variable apply : Transformation → Table → Table.

Lemma create_df_exec path o d st df description columns source relations
    view group_by transformations pt pc s0 :
  Path.get_validated_dataset_path path = Ok (o, d) →
  already_exists root st o d = false →
  parse_all Transformation_of transformations = Ok pt →
  parse_all Column_of columns = Ok pc →
  heap st !! df_schema df = Some s0 →
  let s1 :=
    df_overrides (Path.transform_dash_to_underscore d) pt pc group_by s0 in
  create root sanitize apply path (Some df) description columns source
    relations view group_by transformations st =
  match Validation.validate s1 with
  | Raise e =>
      (Raise e, mkState (fs_with_directory root st o d)
                  (<[df_schema df := s1]> (heap st)))
  | Ok _ =>
      loader_load root apply (mkLoader (df_schema df) path)
        (persisted root sanitize
           (<[abs_path root (parquet_file_path_of (dataset_directory_of o d))
              := ParquetFile (df_data df)]> (fs_with_directory root st o d))
           (heap st) o d (df_schema df) description s1)
  end.
Proof.
  intros Hp Hex Ht Hc Hs s1. unfold create.
  rewrite (bind_lift_ok _ _ _ _ Hp).
  unfold fm_exists, os_path_exists. unfold bind at 1 2.
  unfold already_exists in Hex. rewrite Hex.
  unfold fm_mkdir. unfold bind at 1.
  rewrite (bool_decide_eq_false_2 (Some df = None)) by done. cbn [andb].
  rewrite (bind_lift_ok _ _ _ _ Ht), (bind_lift_ok _ _ _ _ Hc).
  subst s1. unfold df_overrides.
  destruct pc as [[|c pc]|], group_by as [g|];
    unfold model_validate, to_parquet, to_yaml, fm_write,
      create_loader_from_schema; exec;
    rewrite ?list_insert_insert_eq;
    unfold Schema.set_name, Schema.set_transformations, Schema.set_columns,
      Schema.set_group_by;
    cbn [Schema.name Schema.description Schema.columns
         Schema.source Schema.relations Schema.group_by
         Schema.transformations Schema.view].
  all: match goal with
       | |- context [Validation.validate ?s] =>
           destruct (Validation.validate s) as [[]|e] eqn:Hv
       end.
  all: try reflexivity.
  all: rewrite (bind_lift_ok _ ()) by done; exec.
  all: rewrite ?list_insert_insert_eq.
  all: try reflexivity.
Qed.

Lemma create_invalid_path_exec path e st df description columns source
    relations view group_by transformations :
  Path.get_validated_dataset_path path = Raise e →
  create root sanitize apply path df description columns source relations
    view group_by transformations st = (Raise e, st).
Proof. intros Hp. unfold create. by rewrite (bind_lift_raise _ e). Qed.

Lemma create_exists_exec path o d st df description columns source
    relations view group_by transformations :
  Path.get_validated_dataset_path path = Ok (o, d) →
  already_exists root st o d = true →
  create root sanitize apply path df description columns source relations
    view group_by transformations st
  = (Raise (ValueError ("Dataset already exists at path: " +:+ path)), st).
Proof.
  intros Hp Hex. unfold create. rewrite (bind_lift_ok _ _ _ _ Hp).
  unfold fm_exists, os_path_exists. unfold bind at 1 2.
  unfold already_exists in Hex. by rewrite Hex.
Qed.

Lemma create_no_kind_exec path o d st description columns relations
    group_by transformations :
  Path.get_validated_dataset_path path = Ok (o, d) →
  already_exists root st o d = false →
  create root sanitize apply path None description columns None relations
    false group_by transformations st
  = (Raise (InvalidConfigError
              "Please provide either a DataFrame, a Source or a View"),
     mkState (fs_with_directory root st o d) (heap st)).
Proof. intros Hp Hex. enter Hp Hex. reflexivity. Qed.

Lemma create_parse_transformations_exec path o d st df description columns
    source relations view group_by transformations e :
  Path.get_validated_dataset_path path = Ok (o, d) →
  already_exists root st o d = false →
  parse_all Transformation_of transformations = Raise e →
  ∃ e', config_error e' ∧
        create root sanitize apply path df description columns source
          relations view group_by transformations st
        = (Raise e', mkState (fs_with_directory root st o d) (heap st)).
Proof.
  intros Hp Hex Ht. enter Hp Hex.
  destruct (_ && _ && _); [eexists; split; [by eexists|done]|].
  rewrite (bind_lift_raise _ e) by done. exists e. split; [|done].
  eapply ValidationFacts.parse_all_config; [|done].
  apply ValidationFacts.Transformation_of_config.
Qed.

Lemma create_parse_columns_exec path o d st df description columns
    source relations view group_by transformations pt e :
  Path.get_validated_dataset_path path = Ok (o, d) →
  already_exists root st o d = false →
  parse_all Transformation_of transformations = Ok pt →
  parse_all Column_of columns = Raise e →
  ∃ e', config_error e' ∧
        create root sanitize apply path df description columns source
          relations view group_by transformations st
        = (Raise e', mkState (fs_with_directory root st o d) (heap st)).
Proof.
  intros Hp Hex Ht Hc. enter Hp Hex.
  destruct (_ && _ && _); [eexists; split; [by eexists|done]|].
  rewrite (bind_lift_ok _ _ _ _ Ht), (bind_lift_raise _ e) by done.
  exists e. split; [|done].
  eapply ValidationFacts.parse_all_config; [|done].
  apply ValidationFacts.Column_of_config.
Qed.

Lemma create_df_dangling_exec path o d st df description columns source
    relations view group_by transformations pt pc :
  Path.get_validated_dataset_path path = Ok (o, d) →
  already_exists root st o d = false →
  parse_all Transformation_of transformations = Ok pt →
  parse_all Column_of columns = Ok pc →
  heap st !! df_schema df = None →
  create root sanitize apply path (Some df) description columns source
    relations view group_by transformations st
  = (Raise AttributeError, mkState (fs_with_directory root st o d) (heap st)).
Proof.
  intros Hp Hex Ht Hc Hs. enter Hp Hex.
  rewrite (bool_decide_eq_false_2 (Some df = None)) by done. cbn [andb].
  rewrite (bind_lift_ok _ _ _ _ Ht), (bind_lift_ok _ _ _ _ Hc).
  rewrite !bind_assoc. unfold bind at 1, setattr at 1. cbn [heap].
  by rewrite Hs.
Qed.

Lemma create_view_exec path o d st description columns source relations
    group_by transformations pt pc rs :
  Path.get_validated_dataset_path path = Ok (o, d) →
  already_exists root st o d = false →
  parse_all Transformation_of transformations = Ok pt →
  parse_all Column_of columns = Ok pc →
  rmap Relation_of (default [] relations) = Ok rs →
  let s := Schema.mk (Path.transform_dash_to_underscore d) None pc None
             (Some rs) group_by pt true in
  create root sanitize apply path None description columns source
    relations true group_by transformations st =
  match Validation.validate s with
  | Raise e => (Raise e, mkState (fs_with_directory root st o d) (heap st))
  | Ok _ =>
      loader_load root apply (mkLoader (length (heap st)) path)
        (persisted root sanitize (fs_with_directory root st o d)
           (heap st ++ [s]) o d (length (heap st)) description s)
  end.
Proof.
  intros Hp Hex Ht Hc Hr s. enter Hp Hex.
  rewrite andb_false_r.
  rewrite (bind_lift_ok _ _ _ _ Ht), (bind_lift_ok _ _ _ _ Hc).
  cbn match. rewrite !bind_assoc. rewrite (bind_lift_ok _ _ _ _ Hr).
  unfold SemanticLayerSchema_new. fold s. rewrite !bind_assoc.
  destruct (Validation.validate s) as [[]|e] eqn:Hv; [|done].
  rewrite (bind_lift_ok _ ()) by done.
  unfold to_yaml, fm_write, create_loader_from_schema. exec.
  by rewrite list_insert_insert_eq.
Qed.

Lemma create_source_exec path o d st description columns source relations
    group_by transformations pt pc :
  Path.get_validated_dataset_path path = Ok (o, d) →
  already_exists root st o d = false →
  parse_all Transformation_of transformations = Ok pt →
  parse_all Column_of columns = Ok pc →
  create root sanitize apply path None description columns (Some source)
    relations false group_by transformations st =
  if get_truthy source "table" then
    match Source_of source with
    | Raise e => (Raise e, mkState (fs_with_directory root st o d) (heap st))
    | Ok src =>
        let s := Schema.mk (Path.transform_dash_to_underscore d) None pc
                   (Some src) None group_by pt false in
        match Validation.validate s with
        | Raise e =>
            (Raise e, mkState (fs_with_directory root st o d) (heap st))
        | Ok _ =>
            loader_load root apply (mkLoader (length (heap st)) path)
              (persisted root sanitize (fs_with_directory root st o d)
                 (heap st ++ [s]) o d (length (heap st)) description s)
        end
    end
  else (Raise (UnboundLocalError "schema"),
        mkState (fs_with_directory root st o d) (heap st)).
Proof.
  intros Hp Hex Ht Hc. enter Hp Hex.
  rewrite (bool_decide_eq_false_2 (Some source = None)) by done.
  rewrite andb_false_r. cbn [andb].
  rewrite (bind_lift_ok _ _ _ _ Ht), (bind_lift_ok _ _ _ _ Hc).
  cbn match. destruct (get_truthy source "table"); [|by exec].
  rewrite !bind_assoc.
  destruct (Source_of source) as [src|e] eqn:Hsrc; [|done].
  rewrite (bind_lift_ok _ src) by done.
  unfold SemanticLayerSchema_new. rewrite !bind_assoc. cbn zeta.
  destruct (Validation.validate _) as [[]|e] eqn:Hv; [|done].
  rewrite (bind_lift_ok _ ()) by done.
  unfold to_yaml, fm_write, create_loader_from_schema. exec.
  by rewrite list_insert_insert_eq.
Qed.

(** The loader reads the state and leaves it as it is. *)
Lemma loader_load_state ldr st r st' :
  loader_load root apply ldr st = (r, st') → st' = st.
Proof.
  unfold loader_load, bind, deref, lift, read_parquet, ret, malformed.
  repeat case_match; intros; by simplify_eq.
Qed.

Lemma loader_load_virtual r path st s :
  heap st !! r = Some s →
  Validation.kind_of s ≠ None →
  Validation.kind_of s ≠ Some Materialized →
  loader_load root apply (mkLoader r path) st
  = (Ok (Virtual (mkVirtualDataFrame r)), st).
Proof.
  intros Hs H1 H2. unfold loader_load. cbn [loader_schema loader_path].
  rewrite (bind_deref _ _ _ _ Hs).
  by destruct (Validation.kind_of s) as [[]|].
Qed.

Lemma loader_load_materialized r path o d st s t :
  heap st !! r = Some s →
  Validation.kind_of s = Some Materialized →
  Path.get_validated_dataset_path path = Ok (o, d) →
  fs st !! abs_path root (parquet_file_path_of (dataset_directory_of o d))
    = Some (ParquetFile t) →
  loader_load root apply (mkLoader r path) st
  = (Ok (Physical
           (mkDataFrame r
              (apply_transformations apply (Schema.transformations s)
                 (select_columns (Schema.columns s) t)))),
     st).
Proof.
  intros Hs Hk Hp Ht. unfold loader_load. cbn [loader_schema loader_path].
  rewrite (bind_deref _ _ _ _ Hs), Hk, (bind_lift_ok _ _ _ _ Hp).
  unfold bind, read_parquet. by rewrite Ht.
Qed.

Lemma create_view_relations_exec path o d st description columns source
    relations group_by transformations pt pc e :
  Path.get_validated_dataset_path path = Ok (o, d) →
  already_exists root st o d = false →
  parse_all Transformation_of transformations = Ok pt →
  parse_all Column_of columns = Ok pc →
  rmap Relation_of (default [] relations) = Raise e →
  create root sanitize apply path None description columns source
    relations true group_by transformations st
  = (Raise e, mkState (fs_with_directory root st o d) (heap st)).
Proof.
  intros Hp Hex Ht Hc Hr. enter Hp Hex.
  rewrite andb_false_r.
  rewrite (bind_lift_ok _ _ _ _ Ht), (bind_lift_ok _ _ _ _ Hc).
  cbn match. rewrite !bind_assoc. by rewrite (bind_lift_raise _ e).
Qed.

(** *** The loader on the state that [create] hands over *)

Lemma kind_of_handed_over description s :
  Validation.kind_of (sanitized sanitize (described description s))
  = Validation.kind_of s.
Proof. done. Qed.

Lemma lookup_handed_over files (objects : list SemanticLayerSchema) o d ref
    description s :
  is_Some (objects !! ref) →
  heap (persisted root sanitize files objects o d ref description s) !! ref
  = Some (sanitized sanitize (described description s)).
Proof. intros [s' Hs]. cbn [persisted heap]. by eapply lookup_insert_same. Qed.

Lemma loader_persisted_virtual files objects o d ref description s path :
  is_Some (objects !! ref) →
  Validation.kind_of s ≠ None →
  Validation.kind_of s ≠ Some Materialized →
  loader_load root apply (mkLoader ref path)
    (persisted root sanitize files objects o d ref description s)
  = (Ok (Virtual (mkVirtualDataFrame ref)),
     persisted root sanitize files objects o d ref description s).
Proof.
  intros Hs H1 H2. eapply loader_load_virtual.
  - by apply lookup_handed_over.
  - by rewrite kind_of_handed_over.
  - by rewrite kind_of_handed_over.
Qed.

Lemma loader_persisted_materialized files objects o d ref description s
    path t :
  is_Some (objects !! ref) →
  Validation.kind_of s = Some Materialized →
  Path.get_validated_dataset_path path = Ok (o, d) →
  files !! abs_path root (parquet_file_path_of (dataset_directory_of o d))
    = Some (ParquetFile t) →
  loader_load root apply (mkLoader ref path)
    (persisted root sanitize files objects o d ref description s)
  = (Ok (Physical
           (mkDataFrame ref
              (apply_transformations apply (Schema.transformations s)
                 (select_columns (Schema.columns s) t)))),
     persisted root sanitize files objects o d ref description s).
Proof.
  intros Hs Hk Hp Ht.
  rewrite (loader_load_materialized ref path o d _
             (sanitized sanitize (described description s)) t); [done|..].
  - by apply lookup_handed_over.
  - by rewrite kind_of_handed_over.
  - done.
  - cbn [persisted fs]. rewrite lookup_insert_ne; [done|].
    apply PathFacts.artifacts_distinct.
Qed.

End Exec.

(** ** The outcomes of [create] *)

Section Outcomes.
Variable root : string.
Variable sanitize : string → string.
Variable apply : Transformation → Table → Table.

Lemma create_df_ok path o d st df description columns source relations
    view group_by transformations pt pc s0 :
  Path.get_validated_dataset_path path = Ok (o, d) →
  already_exists root st o d = false →
  parse_all Transformation_of transformations = Ok pt →
  parse_all Column_of columns = Ok pc →
  heap st !! df_schema df = Some s0 →
  let s1 :=
    df_overrides (Path.transform_dash_to_underscore d) pt pc group_by s0 in
  Validation.validate s1 = Ok () →
  create root sanitize apply path (Some df) description columns source
    relations view group_by transformations st
  = (Ok (df_result apply (df_schema df) s1 (df_data df)),
     persisted root sanitize
       (<[abs_path root (parquet_file_path_of (dataset_directory_of o d))
          := ParquetFile (df_data df)]> (fs_with_directory root st o d))
       (heap st) o d (df_schema df) description s1).
Proof.
  intros Hp Hex Ht Hc Hs s1 Hv.
  rewrite (create_df_exec root sanitize apply path o d st df description
             columns source relations view group_by transformations pt pc
             s0 Hp Hex Ht Hc Hs).
  fold s1. rewrite Hv. unfold df_result.
  destruct (Validation.kind_of s1) as [[]|] eqn:Hk.
  - apply loader_persisted_materialized; [by eexists|done..|].
    apply lookup_insert_eq.
  - apply loader_persisted_virtual; [by eexists|by rewrite Hk..].
  - apply loader_persisted_virtual; [by eexists|by rewrite Hk..].
  - by apply ValidationFacts.validate_ok_kind in Hv.
Qed.

Lemma create_view_ok path o d st description columns source relations
    group_by transformations pt pc rs :
  Path.get_validated_dataset_path path = Ok (o, d) →
  already_exists root st o d = false →
  parse_all Transformation_of transformations = Ok pt →
  parse_all Column_of columns = Ok pc →
  rmap Relation_of (default [] relations) = Ok rs →
  let s := Schema.mk (Path.transform_dash_to_underscore d) None pc None
             (Some rs) group_by pt true in
  Validation.validate s = Ok () →
  create root sanitize apply path None description columns source
    relations true group_by transformations st
  = (Ok (Virtual (mkVirtualDataFrame (length (heap st)))),
     persisted root sanitize (fs_with_directory root st o d)
       (heap st ++ [s]) o d (length (heap st)) description s).
Proof.
  intros Hp Hex Ht Hc Hr s Hv.
  rewrite (create_view_exec root sanitize apply path o d st description
             columns source relations group_by transformations pt pc rs
             Hp Hex Ht Hc Hr).
  fold s. rewrite Hv.
  apply loader_persisted_virtual; [|done..].
  rewrite lookup_new. by eexists.
Qed.

Lemma create_source_ok path o d st description columns source relations
    group_by transformations pt pc src :
  Path.get_validated_dataset_path path = Ok (o, d) →
  already_exists root st o d = false →
  parse_all Transformation_of transformations = Ok pt →
  parse_all Column_of columns = Ok pc →
  get_truthy source "table" = true →
  Source_of source = Ok src →
  let s := Schema.mk (Path.transform_dash_to_underscore d) None pc
             (Some src) None group_by pt false in
  Validation.validate s = Ok () →
  create root sanitize apply path None description columns (Some source)
    relations false group_by transformations st
  = (Ok (Virtual (mkVirtualDataFrame (length (heap st)))),
     persisted root sanitize (fs_with_directory root st o d)
       (heap st ++ [s]) o d (length (heap st)) description s).
Proof.
  intros Hp Hex Ht Hc Htb Hsrc s Hv.
  rewrite (create_source_exec root sanitize apply path o d st description
             columns source relations group_by transformations pt pc
             Hp Hex Ht Hc).
  rewrite Htb, Hsrc. cbn zeta. fold s. rewrite Hv.
  apply loader_persisted_virtual; [|done..].
  rewrite lookup_new. by eexists.
Qed.

(** Every call of [create] ends in one of the four outcomes. *)
Lemma create_outcome path df description columns source relations view
    group_by transformations st :
  Outcome root sanitize path description st
    (create root sanitize apply path df description columns source
       relations view group_by transformations st).1
    (create root sanitize apply path df description columns source
       relations view group_by transformations st).2.
Proof.
  destruct (Path.get_validated_dataset_path path) as [[o d]|e] eqn:Hp.
  2:{ rewrite (create_invalid_path_exec root sanitize apply path e) by done.
      by constructor. }
  destruct (already_exists root st o d) eqn:Hex.
  { rewrite (create_exists_exec root sanitize apply path o d) by done.
    by econstructor. }
  destruct (parse_all Transformation_of transformations) as [pt|e] eqn:Ht.
  2:{ destruct (create_parse_transformations_exec root sanitize apply path
                  o d st df description columns source relations view
                  group_by transformations e Hp Hex Ht) as (e' & He' & ->).
      eapply Rejected; [done..|]. by left. }
  destruct (parse_all Column_of columns) as [pc|e] eqn:Hc.
  2:{ destruct (create_parse_columns_exec root sanitize apply path
                  o d st df description columns source relations view
                  group_by transformations pt e Hp Hex Ht Hc)
        as (e' & He' & ->).
      eapply Rejected; [done..|]. by left. }
  destruct df as [df|].
  - destruct (heap st !! df_schema df) as [s0|] eqn:Hs.
    2:{ rewrite (create_df_dangling_exec root sanitize apply path o d st df
                   description columns source relations view group_by
                   transformations pt pc) by done.
        eapply Rejected; [done..|]. right. by left. }
    destruct (Validation.validate
                (df_overrides (Path.transform_dash_to_underscore d) pt pc
                   group_by s0)) as [[]|e] eqn:Hv.
    + rewrite (create_df_ok path o d st df description columns source
                 relations view group_by transformations pt pc s0)
        by done.
      cbn [fst snd].
      set (ds := df_result apply (df_schema df) _ (df_data df)).
      assert (Hds : dataset_schema ds = df_schema df).
      { unfold ds, df_result. by repeat case_match. }
      rewrite <- Hds.
      eapply Created; [done..| |].
      * rewrite Hds. by eexists.
      * right. by eexists.
    + rewrite (create_df_exec root sanitize apply path o d st df description
                 columns source relations view group_by transformations pt pc
                 s0 Hp Hex Ht Hc Hs).
      rewrite Hv. cbn [fst snd].
      eapply Rejected; [done..|]. left.
      by eapply ValidationFacts.validate_config.
  - destruct view.
    + destruct (rmap Relation_of (default [] relations)) as [rs|e] eqn:Hr.
      2:{ rewrite (create_view_relations_exec root sanitize apply path o d st
                     description columns source relations group_by
                     transformations pt pc e) by done.
          eapply Rejected; [done..|]. left.
          eapply ValidationFacts.rmap_config; [|done].
          apply ValidationFacts.Relation_of_config. }
      destruct (Validation.validate
                  (Schema.mk (Path.transform_dash_to_underscore d) None pc
                     None (Some rs) group_by pt true)) as [[]|e] eqn:Hv.
      * rewrite (create_view_ok path o d st description columns source
                   relations group_by transformations pt pc rs) by done.
        cbn [fst snd].
        change (length (heap st)) with
          (dataset_schema (Virtual (mkVirtualDataFrame (length (heap st))))).
        eapply Created; [done..| |by left].
        cbn [dataset_schema vdf_schema]. rewrite lookup_new. by eexists.
      * rewrite (create_view_exec root sanitize apply path o d st description
                   columns source relations group_by transformations pt pc
                   rs Hp Hex Ht Hc Hr).
        rewrite Hv. eapply Rejected; [done..|]. left.
        by eapply ValidationFacts.validate_config.
    + destruct source as [source|].
      2:{ rewrite (create_no_kind_exec root sanitize apply path o d) by done.
          eapply Rejected; [done..|]. left. by eexists. }
      rewrite (create_source_exec root sanitize apply path o d st description
                 columns source relations group_by transformations pt pc
                 Hp Hex Ht Hc).
      destruct (get_truthy source "table") eqn:Htb.
      2:{ eapply Rejected; [done..|]. right. by right. }
      destruct (Source_of source) as [src|e] eqn:Hsrc.
      2:{ eapply Rejected; [done..|]. left.
          by eapply ValidationFacts.Source_of_config. }
      cbn zeta.
      destruct (Validation.validate _) as [[]|e] eqn:Hv.
      * rewrite loader_persisted_virtual;
          [|rewrite lookup_new; by eexists|done..].
        cbn [fst snd].
        change (length (heap st)) with
          (dataset_schema (Virtual (mkVirtualDataFrame (length (heap st))))).
        eapply Created; [done..| |by left].
        cbn [dataset_schema vdf_schema]. rewrite lookup_new. by eexists.
      * eapply Rejected; [done..|]. left.
        by eapply ValidationFacts.validate_config.
Qed.

End Outcomes.

(** ** The claims about [create] and [load] *)

Lemma get_validated_raises path e :
  Path.get_validated_dataset_path path = Raise e → e = InvalidPathError.
Proof.
  unfold Path.get_validated_dataset_path. repeat case_match; congruence.
Qed.

Lemma rejection_not_value_error e msg : rejection e → e ≠ ValueError msg.
Proof. intros [[m ->]|[->| ->]]; done. Qed.

Section Claims.
Variable root : string.
Variable sanitize : string → string.
Variable apply : Transformation → Table → Table.

(** Once [create] has succeeded, the dataset it made is in the way of the
    next call on the same path. *)
Lemma created_already_exists path description st ds st1 :
  Outcome root sanitize path description st (Ok ds) st1 →
  ∃ o d, Path.get_validated_dataset_path path = Ok (o, d)
         ∧ already_exists root st1 o d = true.
Proof.
  inversion 1 as [| | |o d ds' s files objects Hp Hex Hv Hn Hobj Hfiles];
    subst.
  exists o, d. split; [done|]. unfold already_exists, persisted. cbn [fs].
  apply andb_true_intro. split; apply bool_decide_eq_true_2.
  - apply insert_is_Some_mono.
    destruct Hfiles as [->|[t ->]];
      [|apply insert_is_Some_mono]; apply mkdir_fs_is_Some.
  - by rewrite lookup_insert_eq.
Qed.

(** A successful call with a DataFrame went through every check. *)
Lemma create_df_inv path df description columns source relations view
    group_by transformations st ds st' :
  create root sanitize apply path (Some df) description columns source
    relations view group_by transformations st = (Ok ds, st') →
  ∃ o d pt pc s0,
    Path.get_validated_dataset_path path = Ok (o, d)
    ∧ already_exists root st o d = false
    ∧ parse_all Transformation_of transformations = Ok pt
    ∧ parse_all Column_of columns = Ok pc
    ∧ heap st !! df_schema df = Some s0
    ∧ Validation.validate
        (df_overrides (Path.transform_dash_to_underscore d) pt pc group_by
           s0) = Ok ().
Proof.
  intros Hc.
  destruct (Path.get_validated_dataset_path path) as [[o d]|e] eqn:Hp.
  2:{ by rewrite (create_invalid_path_exec root sanitize apply path e)
        in Hc. }
  destruct (already_exists root st o d) eqn:Hex.
  { by rewrite (create_exists_exec root sanitize apply path o d) in Hc. }
  destruct (parse_all Transformation_of transformations) as [pt|e] eqn:Ht.
  2:{ destruct (create_parse_transformations_exec root sanitize apply path
                  o d st (Some df) description columns source relations
                  view group_by transformations e Hp Hex Ht)
        as (e' & _ & He'). by rewrite He' in Hc. }
  destruct (parse_all Column_of columns) as [pc|e] eqn:Hcol.
  2:{ destruct (create_parse_columns_exec root sanitize apply path
                  o d st (Some df) description columns source relations
                  view group_by transformations pt e Hp Hex Ht Hcol)
        as (e' & _ & He'). by rewrite He' in Hc. }
  destruct (heap st !! df_schema df) as [s0|] eqn:Hs.
  2:{ by rewrite (create_df_dangling_exec root sanitize apply path o d st df
                    description columns source relations view group_by
                    transformations pt pc) in Hc. }
  exists o, d, pt, pc, s0. split_and!; try done.
  rewrite (create_df_exec root sanitize apply path o d st df description
             columns source relations view group_by transformations pt pc
             s0 Hp Hex Ht Hcol Hs) in Hc.
  by destruct (Validation.validate _) as [[]|e].
Qed.

Lemma parse_all_none {A} (f : Dict → Result A) xs r :
  xs = None ∨ xs = Some [] → parse_all f xs = Ok r → r = None.
Proof. intros [->| ->]; by intros [= <-]. Qed.

(** The loader proper never reports a missing dataset. *)
Lemma loader_load_found ldr st :
  is_dataset_not_found (loader_load root apply ldr st).1 = false.
Proof.
  unfold loader_load, bind, deref, lift, read_parquet, ret, malformed.
  repeat case_match; simplify_eq; try done.
  match goal with
  | H : Path.get_validated_dataset_path _ = Raise _ |- _ =>
      by apply get_validated_raises in H as ->
  end.
Qed.

(** [load] looks for the directory that [create] makes. *)
Lemma load_directory path o d :
  Path.get_validated_dataset_path path = Ok (o, d) →
  Path.join3 root "datasets" path
  = abs_path root (dataset_directory_of o d).
Proof.
  intros Hp. unfold abs_path, dataset_directory_of.
  by rewrite (PathFacts.validated_directory _ _ _ Hp).
Qed.

(** C1, as amended: a call that gives neither a DataFrame, nor a source,
    nor the view flag fails with [InvalidConfigError] once the path is
    resolved and no dataset is in the way, and leaves the files as they
    were apart from the dataset directory.  A call that gives several
    kind indicators is not turned down for that: with the view flag and
    no DataFrame the source is ignored, and with a DataFrame the source,
    the view flag and the relations are ignored. *)
Theorem create_kind_precedence path description columns relations group_by
    transformations st :
  (∀ o d,
      Path.get_validated_dataset_path path = Ok (o, d) →
      already_exists root st o d = false →
      create root sanitize apply path None description columns None
        relations false group_by transformations st
      = (Raise (InvalidConfigError
                  "Please provide either a DataFrame, a Source or a View"),
         mkState (fs_with_directory root st o d) (heap st)))
  ∧ (∀ source,
        create root sanitize apply path None description columns source
          relations true group_by transformations st
        = create root sanitize apply path None description columns None
            relations true group_by transformations st)
  ∧ (∀ df source relations' view,
        create root sanitize apply path (Some df) description columns
          source relations' view group_by transformations st
        = create root sanitize apply path (Some df) description columns
            None None false group_by transformations st).
Proof.
  split_and!.
  - intros o d Hp Hex. by apply create_no_kind_exec.
  - intros source. unfold create. by destruct source.
  - intros df source relations' view. unfold create.
    by destruct source.
Qed.

(** C2: a second call of [create] on the path of a dataset that a first
    call has made fails with the "already exists" error and leaves the
    whole state, hence the artifacts of the first dataset, as it was; and
    [create] fails with that error exactly when the path is valid and the
    dataset directory and the descriptor file both exist. *)
Theorem create_twice path :
  (∀ df description columns source relations view group_by transformations
     df' description' columns' source' relations' view' group_by'
     transformations' st ds st1,
      create root sanitize apply path df description columns source
        relations view group_by transformations st = (Ok ds, st1) →
      create root sanitize apply path df' description' columns' source'
        relations' view' group_by' transformations' st1
      = (Raise (ValueError ("Dataset already exists at path: " +:+ path)),
         st1))
  ∧ (∀ df description columns source relations view group_by
       transformations st,
        (create root sanitize apply path df description columns source
           relations view group_by transformations st).1
        = Raise (ValueError ("Dataset already exists at path: " +:+ path))
        ↔ ∃ o d, Path.get_validated_dataset_path path = Ok (o, d)
                 ∧ already_exists root st o d = true).
Proof.
  split.
  - intros df description columns source relations view group_by
      transformations df' description' columns' source' relations' view'
      group_by' transformations' st ds st1 Hc.
    pose proof (create_outcome root sanitize apply path df description
                  columns source relations view group_by transformations
                  st) as Hout.
    rewrite Hc in Hout. cbn [fst snd] in Hout.
    apply created_already_exists in Hout as (o & d & Hp & Hex).
    by apply (create_exists_exec root sanitize apply path o d).
  - intros df description columns source relations view group_by
      transformations st. split.
    + pose proof (create_outcome root sanitize apply path df description
                    columns source relations view group_by transformations
                    st) as Hout.
      intros Hr. rewrite Hr in Hout.
      inversion Hout as [e Hp|o d Hp Hex|o d e objects Hp Hex Hrej|]; subst.
      * by apply get_validated_raises in Hp.
      * by exists o, d.
      * by destruct (rejection_not_value_error _ _ Hrej eq_refl).
    + intros (o & d & Hp & Hex).
      by rewrite (create_exists_exec root sanitize apply path o d).
Qed.

(** C3: whenever [create] fails, the file system holds the files it held
    before, each with its old content, and differs from the old one at
    most by the dataset directory; whenever it succeeds, the descriptor
    file holds a schema that passes validation. *)
Theorem create_writes_after_validation path df description columns source
    relations view group_by transformations st :
  let r := create root sanitize apply path df description columns source
             relations view group_by transformations st in
  match r.1 with
  | Raise _ =>
      same_files (fs st) (fs r.2)
      ∧ (fs r.2 = fs st
         ∨ ∃ o d, Path.get_validated_dataset_path path = Ok (o, d)
                  ∧ fs r.2 = fs_with_directory root st o d)
  | Ok _ =>
      ∃ o d s,
        Path.get_validated_dataset_path path = Ok (o, d)
        ∧ fs r.2 !! abs_path root
                      (schema_path_of (dataset_directory_of o d))
          = Some (YamlFile s)
        ∧ Validation.validate s = Ok ()
  end.
Proof.
  intros r.
  pose proof (create_outcome root sanitize apply path df description
                columns source relations view group_by transformations st)
    as Hout.
  fold r in Hout. destruct r as [res st']. cbn [fst snd] in *.
  inversion Hout
    as [e Hp|o d Hp Hex|o d e objects Hp Hex Hrej
       |o d ds s files objects Hp Hex Hv Hn Hobj Hfiles]; subst.
  - split; [apply same_files_refl|by left].
  - split; [apply same_files_refl|by left].
  - cbn [fs]. split; [apply same_files_mkdir|]. right. by exists o, d.
  - exists o, d, (described description s). split_and!; [done| |done].
    cbn [persisted fs]. apply lookup_insert_eq.
Qed.

(** C9: when [create] succeeds, the descriptor holds a schema whose name
    is the dataset segment of the path with hyphens turned into
    underscores, and the schema object handed to the loader, to which the
    returned dataset refers, is that schema with its name sanitised: the
    sanitised name is not the one on disk. *)
Theorem create_stored_name path df description columns source relations
    view group_by transformations st ds st' :
  create root sanitize apply path df description columns source relations
    view group_by transformations st = (Ok ds, st') →
  ∃ o d s,
    Path.get_validated_dataset_path path = Ok (o, d)
    ∧ fs st' !! abs_path root (schema_path_of (dataset_directory_of o d))
      = Some (YamlFile s)
    ∧ Schema.name s = Path.transform_dash_to_underscore d
    ∧ heap st' !! dataset_schema ds
      = Some (Schema.set_name
                (sanitize (Path.transform_dash_to_underscore d)) s).
Proof.
  intros Hc.
  pose proof (create_outcome root sanitize apply path df description
                columns source relations view group_by transformations st)
    as Hout.
  rewrite Hc in Hout. cbn [fst snd] in Hout.
  inversion Hout as [| | |o d ds' s files objects Hp Hex Hv Hn Hobj Hfiles];
    subst.
  exists o, d, (described description s). split_and!; [done| |done|].
  - cbn [persisted fs]. apply lookup_insert_eq.
  - rewrite lookup_handed_over by done. unfold sanitized.
    by rewrite <- Hn.
Qed.

(** C7: for a call with a DataFrame, on a valid path with no dataset in
    the way and with well-formed transformation and column dictionaries,
    the schema that is validated is the schema of the DataFrame with the
    name and the transformations always replaced, the columns and the
    group-by keys kept unless they are supplied, and everything else
    kept.  If it passes validation the call succeeds, the descriptor
    holds it (with the description of the call, if any) and the data file
    holds the payload of the DataFrame; if it does not, the call fails
    with the validation error and neither file is written. *)
Theorem create_materialized path o d st df description columns source
    relations view group_by transformations pt pc s0 :
  Path.get_validated_dataset_path path = Ok (o, d) →
  already_exists root st o d = false →
  parse_all Transformation_of transformations = Ok pt →
  parse_all Column_of columns = Ok pc →
  heap st !! df_schema df = Some s0 →
  let s1 :=
    df_overrides (Path.transform_dash_to_underscore d) pt pc group_by s0 in
  let r := create root sanitize apply path (Some df) description columns
             source relations view group_by transformations st in
  (Schema.name s1 = Path.transform_dash_to_underscore d
   ∧ Schema.transformations s1 = pt
   ∧ (columns = None → Schema.columns s1 = Schema.columns s0)
   ∧ (group_by = None → Schema.group_by s1 = Schema.group_by s0)
   ∧ (∀ c cs, pc = Some (c :: cs) → Schema.columns s1 = pc)
   ∧ (∀ g, group_by = Some g → Schema.group_by s1 = Some g)
   ∧ Schema.source s1 = Schema.source s0
   ∧ Schema.relations s1 = Schema.relations s0
   ∧ Schema.view s1 = Schema.view s0)
  ∧ match Validation.validate s1 with
    | Ok _ =>
        is_ok r.1 = true
        ∧ fs r.2 !! abs_path root
                      (schema_path_of (dataset_directory_of o d))
          = Some (YamlFile (described description s1))
        ∧ fs r.2 !! abs_path root
                      (parquet_file_path_of (dataset_directory_of o d))
          = Some (ParquetFile (df_data df))
    | Raise e => r.1 = Raise e ∧ fs r.2 = fs_with_directory root st o d
    end.
Proof.
  intros Hp Hex Ht Hc Hs s1 r. split.
  - subst s1. unfold df_overrides. cbn. split_and!; try done.
    + intros ->. by injection Hc as <-.
    + by intros ->.
    + by intros c cs ->.
    + by intros g ->.
  - destruct (Validation.validate s1) as [[]|e] eqn:Hv.
    + subst r.
      rewrite (create_df_ok root sanitize apply path o d st df description
                 columns source relations view group_by transformations pt
                 pc s0) by done.
      cbn [fst snd persisted fs]. split_and!; [done|..].
      * apply lookup_insert_eq.
      * rewrite lookup_insert_ne by apply PathFacts.artifacts_distinct.
        apply lookup_insert_eq.
    + subst r.
      rewrite (create_df_exec root sanitize apply path o d st df description
                 columns source relations view group_by transformations pt
                 pc s0 Hp Hex Ht Hc Hs).
      fold s1. by rewrite Hv.
Qed.

(** C8: for a call without a DataFrame and without the view flag.  If the
    source names a table, is well formed and the schema built from it
    passes validation, the call succeeds and the descriptor holds a
    source-backed schema carrying that source.  If the source is missing
    or names no table, the call fails and writes no file. *)
Theorem create_source_backed path description columns relations group_by
    transformations st :
  (∀ o d pt pc source src,
      Path.get_validated_dataset_path path = Ok (o, d) →
      already_exists root st o d = false →
      parse_all Transformation_of transformations = Ok pt →
      parse_all Column_of columns = Ok pc →
      get_truthy source "table" = true →
      Source_of source = Ok src →
      Validation.validate
        (Schema.mk (Path.transform_dash_to_underscore d) None pc (Some src)
           None group_by pt false) = Ok () →
      ∃ ds st' s,
        create root sanitize apply path None description columns
          (Some source) relations false group_by transformations st
        = (Ok ds, st')
        ∧ fs st' !! abs_path root
                      (schema_path_of (dataset_directory_of o d))
          = Some (YamlFile s)
        ∧ Schema.source s = Some src
        ∧ Validation.kind_of s = Some (SourceBacked src))
  ∧ (∀ source,
        source = None
        ∨ (∃ src, source = Some src ∧ get_truthy src "table" = false) →
        let r := create root sanitize apply path None description columns
                   source relations false group_by transformations st in
        is_ok r.1 = false ∧ same_files (fs st) (fs r.2)).
Proof.
  split.
  - intros o d pt pc source src Hp Hex Ht Hc Htb Hsrc Hv.
    eexists _, _, _. split.
    { by apply (create_source_ok root sanitize apply path o d st description
                  columns source relations group_by transformations pt pc
                  src). }
    cbn [persisted fs]. split_and!; [apply lookup_insert_eq|done..].
  - intros source Hsource r.
    assert (Hr : is_ok r.1 = false).
    { subst r.
      destruct (Path.get_validated_dataset_path path) as [[o d]|e] eqn:Hp.
      2:{ by rewrite (create_invalid_path_exec root sanitize apply path e). }
      destruct (already_exists root st o d) eqn:Hex.
      { by rewrite (create_exists_exec root sanitize apply path o d). }
      destruct (parse_all Transformation_of transformations)
        as [pt|e] eqn:Ht.
      2:{ destruct (create_parse_transformations_exec root sanitize apply
                      path o d st None description columns source relations
                      false group_by transformations e Hp Hex Ht)
            as (e' & _ & ->). done. }
      destruct (parse_all Column_of columns) as [pc|e] eqn:Hc.
      2:{ destruct (create_parse_columns_exec root sanitize apply path
                      o d st None description columns source relations
                      false group_by transformations pt e Hp Hex Ht Hc)
            as (e' & _ & ->). done. }
      destruct Hsource as [->|(src & -> & Htb)].
      - by rewrite (create_no_kind_exec root sanitize apply path o d).
      - rewrite (create_source_exec root sanitize apply path o d st
                   description columns src relations group_by
                   transformations pt pc Hp Hex Ht Hc).
        by rewrite Htb. }
    split; [done|].
    pose proof (create_outcome root sanitize apply path None description
                  columns source relations false group_by transformations
                  st) as Hout.
    fold r in Hout. destruct r as [res st']. cbn [fst snd] in *.
    inversion Hout; subst; cbn [fs];
      [apply same_files_refl..|apply same_files_mkdir|done].
Qed.

(** C10, as amended: after a successful call with a DataFrame, the schema
    object of that DataFrame has the sanitised underscore name; its
    transformations are the parsed transformations of the call, which are
    [None] when the argument is omitted or empty; its columns are the
    parsed columns of the call when that list is not empty and are left
    alone when the argument is omitted or empty; its group-by keys are
    those of the call when the argument is given, even empty, and are
    left alone otherwise. *)
Theorem create_mutates_schema path df description columns source relations
    view group_by transformations st ds st' s0 :
  heap st !! df_schema df = Some s0 →
  create root sanitize apply path (Some df) description columns source
    relations view group_by transformations st = (Ok ds, st') →
  ∃ o d pt pc s',
    Path.get_validated_dataset_path path = Ok (o, d)
    ∧ parse_all Transformation_of transformations = Ok pt
    ∧ parse_all Column_of columns = Ok pc
    ∧ heap st' !! df_schema df = Some s'
    ∧ Schema.name s' = sanitize (Path.transform_dash_to_underscore d)
    ∧ Schema.transformations s' = pt
    ∧ (transformations = None ∨ transformations = Some [] →
       Schema.transformations s' = None)
    ∧ (∀ c cs, pc = Some (c :: cs) → Schema.columns s' = pc)
    ∧ (columns = None ∨ columns = Some [] →
       Schema.columns s' = Schema.columns s0)
    ∧ (∀ g, group_by = Some g → Schema.group_by s' = Some g)
    ∧ (group_by = None → Schema.group_by s' = Schema.group_by s0).
Proof.
  intros Hs Hc.
  destruct (create_df_inv _ _ _ _ _ _ _ _ _ _ _ _ Hc)
    as (o & d & pt & pc & s0' & Hp & Hex & Ht & Hcol & Hs' & Hv).
  assert (s0' = s0) as -> by congruence.
  rewrite (create_df_ok root sanitize apply path o d st df description
             columns source relations view group_by transformations pt pc
             s0) in Hc by done.
  injection Hc as _ <-.
  eexists o, d, pt, pc, _. split_and!; [done..| | | | | | | |].
  - apply lookup_handed_over. by eexists.
  - done.
  - done.
  - intros H. by apply (parse_all_none _ _ _ H) in Ht as ->.
  - by intros c cs ->.
  - intros H. by apply (parse_all_none _ _ _ H) in Hcol as ->.
  - by intros g ->.
  - by intros ->.
Qed.


(** C5, as amended: for a valid path, on a file system in which the
    descriptor is not present without its directory, [load] fails with
    [DatasetNotFound] exactly when no descriptor is present at the
    resolved location; for a malformed path it fails with
    [InvalidPathError] before it looks at the file system. *)
Theorem load_not_found path st :
  (∀ o d,
      Path.get_validated_dataset_path path = Ok (o, d) →
      (is_Some
         (fs st !! abs_path root (schema_path_of (dataset_directory_of o d)))
       → is_Some (fs st !! abs_path root (dataset_directory_of o d))) →
      is_dataset_not_found (load root sanitize apply path st).1 = true
      ↔ fs st !! abs_path root (schema_path_of (dataset_directory_of o d))
        = None)
  ∧ (∀ e,
        Path.get_validated_dataset_path path = Raise e →
        load root sanitize apply path st = (Raise InvalidPathError, st)).
Proof.
  split.
  - intros o d Hp Hwf. unfold load. rewrite (bind_lift_ok _ _ _ _ Hp).
    rewrite (load_directory path o d Hp).
    unfold os_path_exists. unfold bind at 1.
    destruct (fs st !! abs_path root (dataset_directory_of o d))
      as [n|] eqn:Hdir.
    2:{ rewrite bool_decide_eq_false_2 by (by intros [? ?]).
        cbn [negb]. split; [|done]. intros _.
        apply eq_None_not_Some. intros H. by destruct (Hwf H). }
    rewrite bool_decide_eq_true_2 by done. cbn [negb].
    unfold create_loader_from_path.
    rewrite !bind_assoc, (bind_lift_ok _ _ _ _ Hp).
    unfold bind at 1.
    destruct (fs st !! abs_path root (schema_path_of _))
      as [[|s|t]|] eqn:Hy; try done.
    destruct (Validation.validate s) as [[]|e] eqn:Hv.
    + rewrite (bind_lift_ok _ ()) by done.
      rewrite bind_new. cbn [ret]. rewrite bind_ret_r.
      by rewrite loader_load_found.
    + rewrite (bind_lift_raise _ e) by done.
      by destruct (ValidationFacts.validate_config _ _ Hv) as [m ->].
  - intros e Hp. unfold load. rewrite (bind_lift_raise _ e) by done.
    by rewrite (get_validated_raises _ _ Hp).
Qed.

End Claims.

(** C6, as amended: a schema with an aggregated column and a plain column
    that is not among the group-by keys fails validation; with that column
    added to the keys it passes validation provided nothing else is wrong
    with it: its name is valid, its column names are unique, its keys name
    plain columns, every other plain column is among the keys, and its kind
    is determined. *)
Theorem aggregation_needs_group_by (s : SemanticLayerSchema) (a p : Column) :
  a ∈ Validation.cols s → Validation.is_aggregated a = true →
  p ∈ Validation.cols s → Validation.is_plain p = true →
  col_name p ∉ Validation.keys s →
  (∃ msg, Validation.validate s = Raise (InvalidConfigError msg))
  ∧ (Validation.valid_name (Schema.name s) = true →
     Validation.unique (map col_name (Validation.cols s)) = true →
     (∀ g, g ∈ Validation.keys s →
           Validation.references_plain (Validation.cols s) g = true) →
     (∀ c, c ∈ Validation.cols s → Validation.is_plain c = true →
           col_name c = col_name p ∨ col_name c ∈ Validation.keys s) →
     Validation.kind_of s ≠ None →
     Validation.validate
       (Schema.set_group_by (Some ((Validation.keys s ++ [col_name p])%list)) s)
     = Ok ()).
Proof.
  intros Ha Hagg Hp Hplain Hkey. split.
  - destruct (Validation.validate s) as [[]|e] eqn:Hv.
    2:{ destruct (ValidationFacts.validate_config _ _ Hv) as [m ->].
        by exists m. }
    exfalso. unfold Validation.validate in Hv.
    destruct (Validation.aggregation_ok s) eqn:Hok;
      [|by repeat case_match].
    unfold Validation.aggregation_ok in Hok.
    assert (Hex : existsb Validation.is_aggregated (Validation.cols s) = true).
    { apply existsb_exists. exists a. by rewrite <- list_elem_of_In. }
    rewrite Hex in Hok. apply orb_prop in Hok as [Hok|Hok].
    + apply andb_prop in Hok as [_ Hok].
      rewrite forallb_forall in Hok.
      specialize (Hok p). rewrite <- list_elem_of_In in Hok.
      specialize (Hok Hp). unfold Validation.covered in Hok.
      apply orb_prop in Hok as [Hok|Hok].
      * unfold Validation.is_plain in Hplain. by rewrite Hok in Hplain.
      * by apply ValidationFacts.mem_elem_of in Hok.
    + rewrite forallb_forall in Hok.
      specialize (Hok p). rewrite <- list_elem_of_In in Hok.
      specialize (Hok Hp).
      unfold Validation.is_plain in Hplain. by rewrite Hok in Hplain.
  - intros Hname Huniq Hrefs Hcov Hkind.
    unfold Validation.validate.
    cbn [Schema.set_group_by Schema.name].
    rewrite Hname. cbn [negb].
    assert (Hcols :
      Validation.columns_ok
        (Schema.set_group_by
           (Some ((Validation.keys s ++ [col_name p])%list)) s)
      = true).
    { unfold Validation.columns_ok. apply andb_true_intro. split; [done|].
      apply forallb_forall. intros g Hg. apply list_elem_of_In in Hg.
      change (g ∈ (Validation.keys s ++ [col_name p])%list) in Hg.
      apply elem_of_app in Hg as [Hg|Hg].
      - by apply Hrefs.
      - apply list_elem_of_singleton in Hg as ->.
        apply existsb_exists. exists p. rewrite <- list_elem_of_In.
        split; [done|]. by rewrite String.eqb_refl, Hplain. }
    rewrite Hcols. cbn [negb].
    assert (Hagg' :
      Validation.aggregation_ok
        (Schema.set_group_by
           (Some ((Validation.keys s ++ [col_name p])%list)) s)
      = true).
    { unfold Validation.aggregation_ok.
      change (Validation.cols (Schema.set_group_by _ s))
        with (Validation.cols s).
      change (Validation.keys (Schema.set_group_by _ s))
        with ((Validation.keys s ++ [col_name p])%list).
      destruct (existsb _ _); [|done].
      apply orb_true_intro. left. apply andb_true_intro. split.
      - by destruct (Validation.keys s).
      - apply forallb_forall. intros c Hc. apply list_elem_of_In in Hc.
        unfold Validation.covered.
        destruct (Validation.is_aggregated c) eqn:Hcagg; [done|].
        apply ValidationFacts.mem_elem_of. apply elem_of_app.
        destruct (Hcov c Hc) as [->| Hin].
        + unfold Validation.is_plain. by rewrite Hcagg.
        + right. apply list_elem_of_singleton. done.
        + by left. }
    rewrite Hagg'. cbn [negb].
    change (Validation.kind_of (Schema.set_group_by _ s))
      with (Validation.kind_of s).
    by destruct (Validation.kind_of s).
Qed.

(** ** The claims on the concrete configuration *)

Section Concrete.
Import Example.

Lemma create_kind_precedence_witness :
  Path.get_validated_dataset_path "acme/sales" = Ok ("acme", "sales")
  ∧ already_exists project_root st0 "acme" "sales" = false
  ∧ Example.create "acme/sales" None None None None None false None None st0
    = (Raise (InvalidConfigError
                "Please provide either a DataFrame, a Source or a View"),
       mkState (fs_with_directory project_root st0 "acme" "sales")
         (heap st0)).
Proof.
  split_and!; [reflexivity|reflexivity|].
  apply (proj1 (create_kind_precedence project_root sanitize_sql_table_name
                  apply_transformation "acme/sales" None None None None None
                  st0)); reflexivity.
Defined.

(** Against C1 as stated: a call that gives both a source and the view
    flag with relations is not turned down; it makes the view and writes
    its descriptor, in which the source does not appear.  And a call that
    gives none of the three on a malformed path fails with
    [InvalidPathError], since the path is resolved first. *)
Lemma create_conflicting_kinds_accepted :
  let r := Example.create "acme/sales-view" None None None
             (Some orders_source) (Some [orders_relation]) true None None
             st0 in
  (r.1 = Ok (Virtual (mkVirtualDataFrame 1))
   ∧ is_invalid_config r.1 = false
   ∧ ∃ s, fs r.2 !! "/srv/app/datasets/acme/sales-view/schema.yaml"
          = Some (YamlFile s)
          ∧ Schema.view s = true ∧ Schema.source s = None)
  ∧ Example.create "sales" None None None None None false None None st0
    = (Raise InvalidPathError, st0).
Proof.
  cbn zeta. split; [|by vm_compute].
  split_and!; [by vm_compute..|].
  eexists. split; [by vm_compute|]. by split.
Qed.

Lemma create_twice_witness :
  let st1 := (Example.create "acme/sales" (Some sales_df) None None None
                None false None None st0).2 in
  Example.create "acme/sales" None None None (Some orders_source) None
    false None None st1
  = (Raise (ValueError "Dataset already exists at path: acme/sales"), st1).
Proof.
  intros st1.
  apply (proj1 (create_twice project_root sanitize_sql_table_name
                  apply_transformation "acme/sales")
           (Some sales_df) None None None None false None None
           None None None (Some orders_source) None false None None
           st0 (Physical (mkDataFrame 0 sales_table)) st1).
  vm_compute. reflexivity.
Defined.

Lemma create_stored_name_witness :
  ∃ o d s,
    Path.get_validated_dataset_path "acme/sales-data" = Ok (o, d)
    ∧ fs (Example.create "acme/sales-data" (Some sales_df) None None None
            None false None None st0).2
        !! abs_path project_root (schema_path_of (dataset_directory_of o d))
      = Some (YamlFile s)
    ∧ Schema.name s = Path.transform_dash_to_underscore d
    ∧ heap (Example.create "acme/sales-data" (Some sales_df) None None None
              None false None None st0).2
        !! dataset_schema (Physical (mkDataFrame 0 sales_table))
      = Some (Schema.set_name
                (sanitize_sql_table_name
                   (Path.transform_dash_to_underscore d)) s).
Proof.
  apply (create_stored_name project_root sanitize_sql_table_name
           apply_transformation "acme/sales-data" (Some sales_df) None None
           None None false None None st0).
  vm_compute. reflexivity.
Defined.



Lemma load_not_found_witness :
  Path.get_validated_dataset_path "acme/sales" = Ok ("acme", "sales")
  ∧ (is_dataset_not_found (Example.load "acme/sales" st0).1 = true
     ↔ fs st0 !! abs_path project_root
                    (schema_path_of (dataset_directory_of "acme" "sales"))
       = None).
Proof.
  split; [reflexivity|].
  apply (proj1 (load_not_found project_root sanitize_sql_table_name
                  apply_transformation "acme/sales" st0) "acme" "sales");
    [reflexivity|].
  vm_compute. intros [n Hn]. discriminate Hn.
Defined.

(** Against C5 as stated: for the path string [sales], which has one
    segment, [load] fails with [InvalidPathError] and not with
    [DatasetNotFound], although the file system holds no descriptor at
    all. *)
Lemma load_malformed_path :
  fs st0 = ∅
  ∧ fs st0 !! Path.join (Path.join3 project_root "datasets" "sales")
                "schema.yaml" = None
  ∧ Example.load "sales" st0 = (Raise InvalidPathError, st0)
  ∧ is_dataset_not_found (Example.load "sales" st0).1 = false.
Proof. by split_and!. Qed.

Lemma aggregation_needs_group_by_witness :
  (∃ msg, Validation.validate grouped_schema
          = Raise (InvalidConfigError msg))
  ∧ Validation.validate
      (Schema.set_group_by (Some ["category"]) grouped_schema) = Ok ().
Proof.
  destruct (aggregation_needs_group_by grouped_schema total category)
    as [H1 H2].
  - vm_compute. apply list_elem_of_further, list_elem_of_here.
  - reflexivity.
  - vm_compute. apply list_elem_of_here.
  - reflexivity.
  - vm_compute. apply not_elem_of_nil.
  - split; [exact H1|]. apply H2.
    + reflexivity.
    + reflexivity.
    + vm_compute. intros g Hg. by apply not_elem_of_nil in Hg.
    + vm_compute. intros c Hc Hplain. left.
      apply elem_of_cons in Hc as [->|Hc]; [reflexivity|].
      apply elem_of_cons in Hc as [->|Hc]; [discriminate Hplain|].
      by apply not_elem_of_nil in Hc.
    + discriminate.
Defined.

(** Against C6 as stated: the report schema has the aggregated column
    [amount] and the plain column [region], which is not among its
    group-by keys, so it fails validation; with [region] added to the keys
    it still fails, because the plain column [category] is not among
    them. *)
Lemma validation_other_plain_column :
  total ∈ Validation.cols report_schema
  ∧ Validation.is_aggregated total = true
  ∧ region ∈ Validation.cols report_schema
  ∧ Validation.is_plain region = true
  ∧ (col_name region ∉ Validation.keys report_schema)
  ∧ is_ok (Validation.validate report_schema) = false
  ∧ Validation.validate
      (Schema.set_group_by
         (Some ((Validation.keys report_schema ++ [col_name region])%list))
         report_schema)
    = Raise (InvalidConfigError "group_by does not cover the plain columns").
Proof.
  split_and!; try reflexivity.
  - vm_compute. do 2 apply list_elem_of_further. apply list_elem_of_here.
  - vm_compute. apply list_elem_of_here.
  - vm_compute. apply not_elem_of_nil.
Qed.

Lemma create_materialized_witness :
  let r := Example.create "acme/sales" (Some sales_df) None
             (Some [category_dict; total_dict]) None None false
             (Some ["category"]) None st0 in
  is_ok r.1 = true
  ∧ fs r.2 !! abs_path project_root
                (schema_path_of (dataset_directory_of "acme" "sales"))
    = Some (YamlFile
              (Schema.mk "sales" None (Some [category; total]) None None
                 (Some ["category"]) None false))
  ∧ fs r.2 !! abs_path project_root
                (parquet_file_path_of (dataset_directory_of "acme" "sales"))
    = Some (ParquetFile sales_table).
Proof.
  intros r.
  exact (proj2 (create_materialized project_root sanitize_sql_table_name
                  apply_transformation "acme/sales" "acme" "sales" st0
                  sales_df None (Some [category_dict; total_dict]) None None
                  false (Some ["category"]) None None
                  (Some [category; total]) sales_schema
                  eq_refl eq_refl eq_refl eq_refl eq_refl)).
Defined.

Lemma create_source_backed_witness :
  (∃ ds st' s,
      Example.create "acme/orders" None None None (Some orders_source) None
        false None None st0 = (Ok ds, st')
      ∧ fs st' !! abs_path project_root
                    (schema_path_of (dataset_directory_of "acme" "orders"))
        = Some (YamlFile s)
      ∧ Schema.source s = Some (mkSource "postgres" (Some "orders"))
      ∧ Validation.kind_of s
        = Some (SourceBacked (mkSource "postgres" (Some "orders"))))
  ∧ (let r := Example.create "acme/orders" None None None
                (Some untabled_source) None false None None st0 in
     is_ok r.1 = false ∧ same_files (fs st0) (fs r.2)).
Proof.
  destruct (create_source_backed project_root sanitize_sql_table_name
              apply_transformation "acme/orders" None None None None None
              st0) as [H1 H2].
  split.
  - apply (H1 "acme" "orders" None None orders_source
             (mkSource "postgres" (Some "orders"))); reflexivity.
  - apply (H2 (Some untabled_source)). right.
    exists untabled_source. split; reflexivity.
Defined.

Lemma create_mutates_schema_witness :
  ∃ o d pt pc s',
    Path.get_validated_dataset_path "acme/sales" = Ok (o, d)
    ∧ parse_all Transformation_of (Some [fill_amount]) = Ok pt
    ∧ parse_all Column_of (Some [category_dict; total_dict]) = Ok pc
    ∧ heap (Example.create "acme/sales" (Some sales_df) None
              (Some [category_dict; total_dict]) None None false
              (Some ["category"]) (Some [fill_amount]) st0).2
        !! df_schema sales_df = Some s'
    ∧ Schema.name s'
      = sanitize_sql_table_name (Path.transform_dash_to_underscore d)
    ∧ Schema.transformations s' = pt
    ∧ (Some [fill_amount] = None ∨ Some [fill_amount] = Some [] →
       Schema.transformations s' = None)
    ∧ (∀ c cs, pc = Some (c :: cs) → Schema.columns s' = pc)
    ∧ (Some [category_dict; total_dict] = None
       ∨ Some [category_dict; total_dict] = Some [] →
       Schema.columns s' = Schema.columns sales_schema)
    ∧ (∀ g, Some ["category"] = Some g → Schema.group_by s' = Some g)
    ∧ (Some ["category"] = None →
       Schema.group_by s' = Schema.group_by sales_schema).
Proof.
  apply (create_mutates_schema project_root sanitize_sql_table_name
           apply_transformation "acme/sales" sales_df None
           (Some [category_dict; total_dict]) None None false
           (Some ["category"]) (Some [fill_amount]) st0
           (Physical
              (mkDataFrame 0
                 (mkTable [("category", "string"); ("amount", "integer")]
                    [[VStr "books"; VInt 10]; [VStr "games"; VInt 0];
                     [VStr "books"; VInt 5]])))
           _ sales_schema); [reflexivity|].
  vm_compute. reflexivity.
Defined.

(** Against C10 as stated: the call gives the [columns] and the
    [transformations] arguments, both as the empty list, and succeeds; yet
    the columns of the schema of the DataFrame are the ones it had before
    and not the empty list, and its transformations are [None] and not the
    empty list. *)
Lemma create_empty_columns_kept :
  let r := Example.create "acme/sales" (Some sales_df) None (Some []) None
             None false None (Some []) st0 in
  is_ok r.1 = true
  ∧ ∃ s', heap r.2 !! df_schema sales_df = Some s'
          ∧ Schema.columns s' = Some [category; amount]
          ∧ Schema.columns s' = Schema.columns sales_schema
          ∧ Schema.columns s' ≠ Some []
          ∧ Schema.transformations s' = None
          ∧ Schema.transformations s' ≠ Some [].
Proof.
  cbn zeta. split; [by vm_compute|].
  eexists. split; [by vm_compute|]. by split_and!.
Qed.

End Concrete.

(** * Further properties of the code *)

(** ** Paths and the file system *)

Lemma string_app_nil_r (s : string) : s +:+ "" = s.
Proof.
  induction s as [|c s IH]; [done|].
  change (String c (s +:+ "") = String c s). by rewrite IH.
Qed.

Lemma string_app_ne_self (s x : string) : x ≠ "" → s +:+ x ≠ s.
Proof.
  intros Hx H. rewrite <- (string_app_nil_r s) in H at 2.
  by apply String.app_inj in H.
Qed.

Lemma join_extends d n :
  Path.startswith_sep n = false →
  Path.join d n = d +:+ n ∨ Path.join d n = d +:+ "/" +:+ n.
Proof.
  intros Hs. unfold Path.join. rewrite Hs.
  destruct (String.eqb d "" || Path.endswith_sep d); auto.
Qed.

Lemma startswith_sep_app d x :
  d ≠ "" → Path.startswith_sep (d +:+ x) = Path.startswith_sep d.
Proof. by destruct d. Qed.

(** A directory is neither its descriptor nor its data file. *)
Lemma directory_not_artifact a d n :
  d ≠ "" → n ≠ "" → Path.startswith_sep n = false →
  Path.join a d ≠ Path.join a (Path.join d n).
Proof.
  intros Hd Hn Hs H.
  assert (∃ x, x ≠ "" ∧ Path.join d n = d +:+ x) as (x & Hx & Hj).
  { destruct (join_extends d n Hs) as [H1|H1];
      [exists n|exists ("/" +:+ n)]; by rewrite H1. }
  rewrite Hj in H. apply PathFacts.join_inj_r in H.
  - symmetry in H. by apply string_app_ne_self in H.
  - symmetry. by apply startswith_sep_app.
Qed.

Lemma dataset_directory_nonempty path o d :
  Path.get_validated_dataset_path path = Ok (o, d) →
  dataset_directory_of o d ≠ "".
Proof.
  intros Hp. unfold dataset_directory_of.
  rewrite (PathFacts.validated_directory _ _ _ Hp).
  intros ->. done.
Qed.

Lemma string_app_assoc (a b c : string) : (a +:+ b) +:+ c = a +:+ b +:+ c.
Proof.
  induction a as [|x a IH]; [done|].
  change (String x ((a +:+ b) +:+ c) = String x (a +:+ b +:+ c)).
  by rewrite IH.
Qed.

Lemma join_app a d x : d ≠ "" → Path.join a (d +:+ x) = Path.join a d +:+ x.
Proof.
  intros Hd. unfold Path.join. rewrite startswith_sep_app by done.
  destruct (Path.startswith_sep d); [done|].
  destruct (String.eqb a "" || Path.endswith_sep a);
    by rewrite !string_app_assoc.
Qed.

(** What stands in the list of parents is followed by a separator. *)
Lemma prefixes_before_sep_spec p s :
  p ∈ Path.prefixes_before_sep s → ∃ rest, s = p +:+ "/" +:+ rest.
Proof.
  revert p. induction s as [|c s IH]; intros p;
    cbn [Path.prefixes_before_sep].
  - by intros ?%elem_of_nil.
  - rewrite elem_of_app. intros [H|H].
    + destruct (Ascii.eqb c Path.sep) eqn:Hc.
      * apply Ascii.eqb_eq in Hc as ->.
        apply list_elem_of_singleton in H as ->. by exists s.
      * by apply elem_of_nil in H.
    + apply list_elem_of_In, in_map_iff in H as (x & <- & Hx).
      apply list_elem_of_In, IH in Hx as [rest ->]. by exists rest.
Qed.

Lemma parents_above p q :
  p ∈ Path.parents q → ∃ rest, q = p +:+ "/" +:+ rest.
Proof.
  unfold Path.parents. intros [_ H]%list_elem_of_filter.
  by apply prefixes_before_sep_spec.
Qed.

(** [mkdir] touches the directory and the directories above it only. *)
Lemma mkdir_fs_lookup_ne p q (m : gmap string Node) :
  p ≠ q → p ∉ Path.parents q → mkdir_fs q m !! p = m !! p.
Proof.
  intros Hne Hpar. unfold mkdir_fs.
  assert (Hall : ∀ x, x ∈ q :: Path.parents q → p ≠ x).
  { intros x [->|Hx]%elem_of_cons; [done|]. by intros ->. }
  revert Hall. generalize (q :: Path.parents q).
  intros l. induction l as [|x l IH]; intros Hall; [done|].
  cbn [foldr]. rewrite ensure_dir_lookup_ne by (apply Hall; by left).
  apply IH. intros y Hy. apply Hall. by right.
Qed.

Section Frames.
Variable root : string.
Variable sanitize : string → string.
Variable apply : Transformation → Table → Table.

(** How a call without a DataFrame ends. *)
Lemma create_without_df_cases path description columns source relations view
    group_by transformations st :
  let r := create root sanitize apply path None description columns source
             relations view group_by transformations st in
  (is_ok r.1 = false ∧ r.2 = st)
  ∨ (∃ o d,
        Path.get_validated_dataset_path path = Ok (o, d)
        ∧ already_exists root st o d = false
        ∧ is_ok r.1 = false
        ∧ r.2 = mkState (fs_with_directory root st o d) (heap st))
  ∨ (∃ o d s,
        Path.get_validated_dataset_path path = Ok (o, d)
        ∧ already_exists root st o d = false
        ∧ Validation.validate s = Ok ()
        ∧ r = (Ok (Virtual (mkVirtualDataFrame (length (heap st)))),
               persisted root sanitize (fs_with_directory root st o d)
                 (heap st ++ [s]) o d (length (heap st)) description s)).
Proof.
  intros r. subst r.
  destruct (Path.get_validated_dataset_path path) as [[o d]|e] eqn:Hp.
  2:{ left. by rewrite (create_invalid_path_exec root sanitize apply path e). }
  destruct (already_exists root st o d) eqn:Hex.
  { left. by rewrite (create_exists_exec root sanitize apply path o d). }
  right.
  destruct (parse_all Transformation_of transformations) as [pt|e] eqn:Ht.
  2:{ destruct (create_parse_transformations_exec root sanitize apply path
                  o d st None description columns source relations view
                  group_by transformations e Hp Hex Ht) as (e' & _ & ->).
      left. by exists o, d. }
  destruct (parse_all Column_of columns) as [pc|e] eqn:Hc.
  2:{ destruct (create_parse_columns_exec root sanitize apply path
                  o d st None description columns source relations view
                  group_by transformations pt e Hp Hex Ht Hc)
        as (e' & _ & ->).
      left. by exists o, d. }
  destruct view.
  - destruct (rmap Relation_of (default [] relations)) as [rs|e] eqn:Hr.
    2:{ rewrite (create_view_relations_exec root sanitize apply path o d st
                   description columns source relations group_by
                   transformations pt pc e) by done.
        left. by exists o, d. }
    destruct (Validation.validate
                (Schema.mk (Path.transform_dash_to_underscore d) None pc
                   None (Some rs) group_by pt true)) as [[]|e] eqn:Hv.
    + rewrite (create_view_ok root sanitize apply path o d st description
                 columns source relations group_by transformations pt pc rs)
        by done.
      right. by eexists o, d, _.
    + rewrite (create_view_exec root sanitize apply path o d st description
                 columns source relations group_by transformations pt pc
                 rs Hp Hex Ht Hc Hr).
      rewrite Hv. left. by exists o, d.
  - destruct source as [source|].
    2:{ rewrite (create_no_kind_exec root sanitize apply path o d) by done.
        left. by exists o, d. }
    destruct (get_truthy source "table") eqn:Htb.
    2:{ rewrite (create_source_exec root sanitize apply path o d st
                   description columns source relations group_by
                   transformations pt pc Hp Hex Ht Hc).
        rewrite Htb. left. by exists o, d. }
    destruct (Source_of source) as [src|e] eqn:Hsrc.
    2:{ rewrite (create_source_exec root sanitize apply path o d st
                   description columns source relations group_by
                   transformations pt pc Hp Hex Ht Hc).
        rewrite Htb, Hsrc. left. by exists o, d. }
    destruct (Validation.validate
                (Schema.mk (Path.transform_dash_to_underscore d) None pc
                   (Some src) None group_by pt false)) as [[]|e] eqn:Hv.
    + rewrite (create_source_ok root sanitize apply path o d st description
                 columns source relations group_by transformations pt pc src)
        by done.
      right. by eexists o, d, _.
    + rewrite (create_source_exec root sanitize apply path o d st
                 description columns source relations group_by
                 transformations pt pc Hp Hex Ht Hc).
      rewrite Htb, Hsrc. cbn zeta. rewrite Hv. left. by exists o, d.
Qed.

(** How a call with a DataFrame ends. *)
Lemma create_with_df_cases path df description columns source relations view
    group_by transformations st :
  let r := create root sanitize apply path (Some df) description columns
             source relations view group_by transformations st in
  (is_ok r.1 = false ∧ r.2 = st)
  ∨ (∃ o d,
        Path.get_validated_dataset_path path = Ok (o, d)
        ∧ already_exists root st o d = false
        ∧ is_ok r.1 = false
        ∧ r.2 = mkState (fs_with_directory root st o d) (heap st))
  ∨ (∃ o d pt pc s0,
        Path.get_validated_dataset_path path = Ok (o, d)
        ∧ already_exists root st o d = false
        ∧ parse_all Transformation_of transformations = Ok pt
        ∧ parse_all Column_of columns = Ok pc
        ∧ heap st !! df_schema df = Some s0
        ∧ r = match Validation.validate
                      (df_overrides (Path.transform_dash_to_underscore d) pt
                         pc group_by s0) with
              | Raise e =>
                  (Raise e,
                   mkState (fs_with_directory root st o d)
                     (<[df_schema df
                        := df_overrides (Path.transform_dash_to_underscore d)
                             pt pc group_by s0]> (heap st)))
              | Ok _ =>
                  (Ok (df_result apply (df_schema df)
                         (df_overrides (Path.transform_dash_to_underscore d)
                            pt pc group_by s0) (df_data df)),
                   persisted root sanitize
                     (<[abs_path root
                          (parquet_file_path_of (dataset_directory_of o d))
                        := ParquetFile (df_data df)]>
                        (fs_with_directory root st o d))
                     (heap st) o d (df_schema df) description
                     (df_overrides (Path.transform_dash_to_underscore d) pt
                        pc group_by s0))
              end).
Proof.
  intros r. subst r.
  destruct (Path.get_validated_dataset_path path) as [[o d]|e] eqn:Hp.
  2:{ left. by rewrite (create_invalid_path_exec root sanitize apply path e). }
  destruct (already_exists root st o d) eqn:Hex.
  { left. by rewrite (create_exists_exec root sanitize apply path o d). }
  right.
  destruct (parse_all Transformation_of transformations) as [pt|e] eqn:Ht.
  2:{ destruct (create_parse_transformations_exec root sanitize apply path
                  o d st (Some df) description columns source relations view
                  group_by transformations e Hp Hex Ht) as (e' & _ & ->).
      left. by exists o, d. }
  destruct (parse_all Column_of columns) as [pc|e] eqn:Hc.
  2:{ destruct (create_parse_columns_exec root sanitize apply path
                  o d st (Some df) description columns source relations view
                  group_by transformations pt e Hp Hex Ht Hc)
        as (e' & _ & ->).
      left. by exists o, d. }
  destruct (heap st !! df_schema df) as [s0|] eqn:Hs.
  2:{ rewrite (create_df_dangling_exec root sanitize apply path o d st df
                 description columns source relations view group_by
                 transformations pt pc) by done.
      left. by exists o, d. }
  right. exists o, d, pt, pc, s0. split_and!; try done.
  destruct (Validation.validate _) as [[]|e] eqn:Hv.
  - by rewrite (create_df_ok root sanitize apply path o d st df description
                  columns source relations view group_by transformations pt
                  pc s0).
  - rewrite (create_df_exec root sanitize apply path o d st df description
               columns source relations view group_by transformations pt pc
               s0 Hp Hex Ht Hc Hs).
    by rewrite Hv.
Qed.

End Frames.

Section MoreAboutCreate.
Variable root : string.
Variable sanitize : string → string.
Variable apply : Transformation → Table → Table.

Lemma descriptor_not_directory path o d :
  Path.get_validated_dataset_path path = Ok (o, d) →
  abs_path root (schema_path_of (dataset_directory_of o d))
  ≠ abs_path root (dataset_directory_of o d).
Proof.
  intros Hp H. symmetry in H. revert H.
  apply directory_not_artifact; [|done..].
  by eapply dataset_directory_nonempty.
Qed.

(** The descriptor is inside the directory of the dataset: its path is the
    path of the directory with something after it. *)
Lemma descriptor_extends_directory path o d :
  Path.get_validated_dataset_path path = Ok (o, d) →
  ∃ x, x ≠ ""
       ∧ abs_path root (schema_path_of (dataset_directory_of o d))
         = abs_path root (dataset_directory_of o d) +:+ x.
Proof.
  intros Hp. unfold abs_path, Path.join3, schema_path_of.
  pose proof (dataset_directory_nonempty _ _ _ Hp) as Hd.
  destruct (join_extends (dataset_directory_of o d) "schema.yaml" eq_refl)
    as [->| ->]; eexists; (split; [|by apply join_app]); done.
Qed.

(** [mkdir] on the directory of the dataset leaves the place of the
    descriptor as it was. *)
Lemma mkdir_keeps_descriptor path o d (m : gmap string Node) :
  Path.get_validated_dataset_path path = Ok (o, d) →
  mkdir_fs (abs_path root (dataset_directory_of o d)) m
    !! abs_path root (schema_path_of (dataset_directory_of o d))
  = m !! abs_path root (schema_path_of (dataset_directory_of o d)).
Proof.
  intros Hp. apply mkdir_fs_lookup_ne; [by eapply descriptor_not_directory|].
  intros [rest Hr]%parents_above.
  destruct (descriptor_extends_directory _ _ _ Hp) as (x & Hx & Hy).
  rewrite Hy, string_app_assoc in Hr. symmetry in Hr.
  apply string_app_ne_self in Hr; [done|]. by destruct x.
Qed.

(** X1: for a valid path, [create] leaves every path of the file system
    as it was, other than the directory of the dataset, the directories
    above it, its descriptor and, when a DataFrame is given, its data file;
    this holds whether the call succeeds or fails. *)
Theorem create_touches_only_its_dataset path df description columns source
    relations view group_by transformations st o d p :
  Path.get_validated_dataset_path path = Ok (o, d) →
  p ≠ abs_path root (dataset_directory_of o d) →
  p ∉ Path.parents (abs_path root (dataset_directory_of o d)) →
  p ≠ abs_path root (schema_path_of (dataset_directory_of o d)) →
  df = None
  ∨ p ≠ abs_path root (parquet_file_path_of (dataset_directory_of o d)) →
  fs (create root sanitize apply path df description columns source
        relations view group_by transformations st).2 !! p
  = fs st !! p.
Proof.
  intros Hp Hdir Habove Hyaml Hpq. destruct df as [df|].
  - destruct Hpq as [|Hpq]; [done|].
    destruct (create_with_df_cases root sanitize apply path df description
                columns source relations view group_by transformations st)
      as [[_ ->]|[(o' & d' & Hp' & _ & _ & ->)
                 |(o' & d' & pt & pc & s0 & Hp' & _ & _ & _ & _ & ->)]];
      [done|..]; assert (o' = o ∧ d' = d) as [-> ->] by (split; congruence).
    + cbn [fs]. by apply mkdir_fs_lookup_ne.
    + destruct (Validation.validate _); cbn [snd fs persisted].
      * rewrite !lookup_insert_ne by done. by apply mkdir_fs_lookup_ne.
      * by apply mkdir_fs_lookup_ne.
  (* without a DataFrame no data file is written *)
  - destruct (create_without_df_cases root sanitize apply path description
                columns source relations view group_by transformations st)
      as [[_ ->]|[(o' & d' & Hp' & _ & _ & ->)
                 |(o' & d' & s & Hp' & _ & _ & ->)]];
      [done|..]; assert (o' = o ∧ d' = d) as [-> ->] by (split; congruence).
    + cbn [fs]. by apply mkdir_fs_lookup_ne.
    + cbn [snd fs persisted]. rewrite lookup_insert_ne by done.
      by apply mkdir_fs_lookup_ne.
Qed.

(** X2: [create] leaves every schema object as it was, other than the
    schema of the DataFrame it is given: a call without a DataFrame changes
    no existing object, whether it succeeds or fails. *)
Theorem create_keeps_other_objects path df description columns source
    relations view group_by transformations st r s :
  heap st !! r = Some s →
  (∀ d, df = Some d → r ≠ df_schema d) →
  heap (create root sanitize apply path df description columns source
          relations view group_by transformations st).2 !! r
  = Some s.
Proof.
  intros Hr Hne. destruct df as [df|].
  - specialize (Hne df eq_refl).
    destruct (create_with_df_cases root sanitize apply path df description
                columns source relations view group_by transformations st)
      as [[_ ->]|[(o & d & _ & _ & _ & ->)
                 |(o & d & pt & pc & s0 & _ & _ & _ & _ & _ & ->)]];
      [done..|].
    destruct (Validation.validate _); cbn [snd heap persisted];
      by rewrite list_lookup_insert_ne.
  - destruct (create_without_df_cases root sanitize apply path description
                columns source relations view group_by transformations st)
      as [[_ ->]|[(o & d & _ & _ & _ & ->)|(o & d & s' & _ & _ & _ & ->)]];
      [done..|].
    cbn [snd heap persisted].
    apply lookup_lt_Some in Hr as Hlt.
    rewrite list_lookup_insert_ne by lia.
    by rewrite lookup_app_l.
Qed.

(** X3: [create] assigns to the schema of the DataFrame before it
    validates it.  When validation fails the call fails with the validation
    error and writes no file, yet the schema object of the caller keeps the
    new name, the new transformations and the other overrides. *)
Theorem create_failed_validation_overwrites_schema path o d st df description
    columns source relations view group_by transformations pt pc s0 e :
  Path.get_validated_dataset_path path = Ok (o, d) →
  already_exists root st o d = false →
  parse_all Transformation_of transformations = Ok pt →
  parse_all Column_of columns = Ok pc →
  heap st !! df_schema df = Some s0 →
  let s1 :=
    df_overrides (Path.transform_dash_to_underscore d) pt pc group_by s0 in
  Validation.validate s1 = Raise e →
  let r := create root sanitize apply path (Some df) description columns
             source relations view group_by transformations st in
  r.1 = Raise e
  ∧ heap r.2 !! df_schema df = Some s1
  ∧ Schema.name s1 = Path.transform_dash_to_underscore d
  ∧ Schema.transformations s1 = pt
  ∧ fs r.2 = fs_with_directory root st o d.
Proof.
  intros Hp Hex Ht Hc Hs s1 Hv r. subst r.
  rewrite (create_df_exec root sanitize apply path o d st df description
             columns source relations view group_by transformations pt pc
             s0 Hp Hex Ht Hc Hs).
  fold s1. rewrite Hv. cbn [fst snd heap fs].
  split_and!; try done. by eapply lookup_insert_same.
Qed.

(** X4: the transformation and column dictionaries are parsed before the
    schema of the DataFrame is touched.  When one of them is malformed the
    call fails, no schema object is changed and only the dataset directory
    is made. *)
Theorem create_malformed_dict_before_schema path o d st df description
    columns source relations view group_by transformations :
  Path.get_validated_dataset_path path = Ok (o, d) →
  already_exists root st o d = false →
  is_ok (parse_all Transformation_of transformations) = false
  ∨ is_ok (parse_all Column_of columns) = false →
  let r := create root sanitize apply path df description columns source
             relations view group_by transformations st in
  is_ok r.1 = false
  ∧ heap r.2 = heap st
  ∧ fs r.2 = fs_with_directory root st o d.
Proof.
  intros Hp Hex Hbad r. subst r.
  destruct (parse_all Transformation_of transformations) as [pt|e] eqn:Ht.
  - destruct Hbad as [|Hbad]; [done|].
    destruct (parse_all Column_of columns) as [pc|e] eqn:Hc; [done|].
    by destruct (create_parse_columns_exec root sanitize apply path
                   o d st df description columns source relations view
                   group_by transformations pt e Hp Hex Ht Hc)
         as (e' & _ & ->).
  - by destruct (create_parse_transformations_exec root sanitize apply path
                   o d st df description columns source relations view
                   group_by transformations e Hp Hex Ht) as (e' & _ & ->).
Qed.

(** X5: a call of [create] that fails before the descriptor is written
    does not stand in the way of a later one.  Let no descriptor be present
    for a valid path, and let the call name no kind of dataset, or carry a
    malformed transformation or column dictionary, or give a DataFrame whose
    schema fails validation.  Then the call fails, the state it leaves has
    no dataset at the path, and no later call on that path fails with the
    "already exists" error.  A failure after the descriptor is written, in
    the loader, is not covered: there the descriptor stays on disk. *)
Theorem create_failure_allows_retry path o d st df description columns source
    relations view group_by transformations :
  Path.get_validated_dataset_path path = Ok (o, d) →
  fs st !! abs_path root (schema_path_of (dataset_directory_of o d)) = None →
  (df = None ∧ source = None ∧ view = false)
  ∨ is_ok (parse_all Transformation_of transformations) = false
  ∨ is_ok (parse_all Column_of columns) = false
  ∨ (∃ df0 pt pc s0,
        df = Some df0
        ∧ parse_all Transformation_of transformations = Ok pt
        ∧ parse_all Column_of columns = Ok pc
        ∧ heap st !! df_schema df0 = Some s0
        ∧ is_ok (Validation.validate
                   (df_overrides (Path.transform_dash_to_underscore d) pt pc
                      group_by s0)) = false) →
  let r := create root sanitize apply path df description columns source
             relations view group_by transformations st in
  is_ok r.1 = false
  ∧ already_exists root r.2 o d = false
  ∧ ∀ df' description' columns' source' relations' view' group_by'
      transformations',
      (create root sanitize apply path df' description' columns' source'
         relations' view' group_by' transformations' r.2).1
      ≠ Raise (ValueError ("Dataset already exists at path: " +:+ path)).
Proof.
  intros Hp Hnone Hcause r.
  assert (Hex : already_exists root st o d = false).
  { unfold already_exists. apply andb_false_intro2.
    apply bool_decide_eq_false_2. rewrite Hnone. by intros [n Hn]. }
  assert (∃ e objects,
            r = (Raise e, mkState (fs_with_directory root st o d) objects))
    as (e & objects & Hr).
  { subst r. destruct Hcause as [(-> & -> & ->)|[Ht|[Hc|Hv]]].
    - rewrite (create_no_kind_exec root sanitize apply path o d) by done.
      by eexists _, _.
    - destruct (parse_all Transformation_of transformations) as [pt|e] eqn:Ht';
        [done|].
      destruct (create_parse_transformations_exec root sanitize apply path
                  o d st df description columns source relations view
                  group_by transformations e Hp Hex Ht') as (e' & _ & ->).
      by eexists _, _.
    - destruct (parse_all Transformation_of transformations) as [pt|e] eqn:Ht.
      + destruct (parse_all Column_of columns) as [pc|e] eqn:Hc'; [done|].
        destruct (create_parse_columns_exec root sanitize apply path
                    o d st df description columns source relations view
                    group_by transformations pt e Hp Hex Ht Hc')
          as (e' & _ & ->).
        by eexists _, _.
      + destruct (create_parse_transformations_exec root sanitize apply path
                    o d st df description columns source relations view
                    group_by transformations e Hp Hex Ht) as (e' & _ & ->).
        by eexists _, _.
    - destruct Hv as (df0 & pt & pc & s0 & -> & Ht & Hc & Hs & Hv).
      rewrite (create_df_exec root sanitize apply path o d st df0
                 description columns source relations view group_by
                 transformations pt pc s0 Hp Hex Ht Hc Hs).
      destruct (Validation.validate _) as [[]|e]; [done|].
      by eexists _, _. }
  rewrite Hr. cbn [fst snd].
  set (st1 := mkState (fs_with_directory root st o d) objects).
  assert (Hex1 : already_exists root st1 o d = false).
  { unfold already_exists. apply andb_false_intro2.
    apply bool_decide_eq_false_2. intros [n Hn].
    cbn [st1 fs] in Hn. unfold fs_with_directory in Hn.
    rewrite (mkdir_keeps_descriptor path) in Hn by done.
    congruence. }
  split_and!; [done..|].
  intros df' description' columns' source' relations' view' group_by'
    transformations' Hr'.
  pose proof (create_outcome root sanitize apply path df' description'
                columns' source' relations' view' group_by' transformations'
                st1) as Hout.
  rewrite Hr' in Hout. clearbody st1. clear Hr.
  inversion Hout as [e' Hp'|o' d' Hp' Hex'|o' d' e' objects' Hp' Hex' Hrej|];
    subst.
  - congruence.
  - assert (o' = o ∧ d' = d) as [-> ->] by (split; congruence). congruence.
  - by destruct (rejection_not_value_error _ _ Hrej eq_refl).
Qed.

(** X6: [create] does not tell an empty list from an omitted argument for
    [columns], [transformations] and [relations], nor the empty string from
    an omitted [description]: the result and the final state are the
    same. *)
Theorem create_empty_as_omitted path df description columns source relations
    view group_by transformations st :
  create root sanitize apply path df description (Some []) source relations
    view group_by transformations st
  = create root sanitize apply path df description None source relations
      view group_by transformations st
  ∧ create root sanitize apply path df description columns source relations
      view group_by (Some []) st
    = create root sanitize apply path df description columns source
        relations view group_by None st
  ∧ create root sanitize apply path df description columns source (Some [])
      view group_by transformations st
    = create root sanitize apply path df description columns source None
        view group_by transformations st
  ∧ create root sanitize apply path df (Some "") columns source relations
      view group_by transformations st
    = create root sanitize apply path df None columns source relations
        view group_by transformations st.
Proof. by split_and!. Qed.

End MoreAboutCreate.

Section ConversationFacts.
Variable Agent : Type.
Variable Sandbox : Type.
Variable Response : Type.
Variable Agent_new : list DataFrame → option Sandbox → Result Agent.
Variable Agent_chat : Agent → string → Result Response * Agent.
Variable Agent_follow_up : Agent → string → Result Response * Agent.

Lemma call_keeps_agent c agent :
  is_Some agent →
  is_Some (call Agent Sandbox Response Agent_new Agent_chat Agent_follow_up
             c agent).2.
Proof.
  intros [a ->]. unfold call, chat, follow_up.
  repeat case_match; by eexists.
Qed.

Lemma run_keeps_agent calls agent :
  is_Some agent →
  is_Some (run Agent Sandbox Response Agent_new Agent_chat Agent_follow_up
             calls agent).
Proof.
  revert agent. induction calls as [|c calls IH]; intros agent Ha; [done|].
  cbn. apply IH. by apply call_keeps_agent.
Qed.

(** X7: once a [chat] with at least one dataframe has built its agent,
    the global agent is set after every further sequence of calls, whatever
    they are and whether they raise; so a [follow_up] goes to the current
    agent and never reports a missing conversation. *)
Theorem conversation_never_lost query dataframes sandbox calls query' agent0
    agent :
  dataframes ≠ [] →
  Agent_new dataframes sandbox = Ok agent →
  let started :=
    (chat Agent Sandbox Response Agent_new Agent_chat query dataframes
       sandbox agent0).2 in
  let current :=
    run Agent Sandbox Response Agent_new Agent_chat Agent_follow_up calls
      started in
  ∃ a, current = Some a
       ∧ follow_up Agent Response Agent_follow_up query' current
         = ((Agent_follow_up a query').1, Some (Agent_follow_up a query').2).
Proof.
  intros Hdfs Hnew started current.
  assert (Hs : is_Some started).
  { subst started. unfold chat. destruct dataframes; [done|].
    rewrite Hnew. destruct (Agent_chat _ _). by eexists. }
  destruct (run_keeps_agent calls started Hs) as [a Ha].
  exists a. subst current. split; [done|]. rewrite Ha. unfold follow_up.
  by destruct (Agent_follow_up a query').
Qed.

(** X8: from the initial state of the module, calls that start nothing
    (follow-ups, chats without dataframes, chats whose agent cannot be
    built) leave the global agent unset, and a [follow_up] then fails with
    the "No existing conversation" error. *)
Theorem conversation_needs_chat calls query :
  Forall (starts_nothing Agent Sandbox Agent_new) calls →
  let current :=
    run Agent Sandbox Response Agent_new Agent_chat Agent_follow_up calls
      (initial_agent Agent) in
  current = None
  ∧ follow_up Agent Response Agent_follow_up query current
    = (Raise (ValueError
                ("No existing conversation. "
                 +:+ "Please use chat() to start a new conversation.")),
       None).
Proof.
  intros Hcalls current.
  assert (Hnone : current = None).
  { subst current. unfold initial_agent.
    induction Hcalls as [|c calls Hc _ IH]; [done|].
    cbn. replace (call _ _ _ _ _ _ c None).2 with (@None Agent); [done|].
    unfold call, chat, follow_up.
    destruct c as [q dataframes sandbox|q]; [|done].
    destruct Hc as [->|Hc]; [done|].
    destruct dataframes; [done|].
    by destruct (Agent_new (_ :: _) sandbox). }
  by rewrite Hnone.
Qed.

(** X9: a [chat] with at least one dataframe whose agent can be built
    does not depend on the conversation before it: its result and the new
    global agent are the same for every previous state, and the global is
    the new agent after the query, also when the query raised. *)
Theorem chat_starts_afresh query dataframes sandbox agent previous previous' :
  dataframes ≠ [] →
  Agent_new dataframes sandbox = Ok agent →
  chat Agent Sandbox Response Agent_new Agent_chat query dataframes sandbox
    previous
  = chat Agent Sandbox Response Agent_new Agent_chat query dataframes sandbox
      previous'
  ∧ (chat Agent Sandbox Response Agent_new Agent_chat query dataframes
       sandbox previous).2
    = Some (Agent_chat agent query).2.
Proof.
  intros Hdfs Hnew. unfold chat. destruct dataframes; [done|].
  rewrite Hnew. by destruct (Agent_chat agent query).
Qed.

(** X10: a [chat] without dataframes, or whose agent cannot be built,
    fails and leaves the global agent as it was, so a [follow_up] after it
    continues the previous conversation. *)
Theorem chat_refused_keeps_conversation query dataframes sandbox previous
    query' :
  dataframes = [] ∨ is_ok (Agent_new dataframes sandbox) = false →
  let r := chat Agent Sandbox Response Agent_new Agent_chat query dataframes
             sandbox previous in
  is_ok r.1 = false
  ∧ r.2 = previous
  ∧ follow_up Agent Response Agent_follow_up query' r.2
    = follow_up Agent Response Agent_follow_up query' previous.
Proof.
  intros H r. subst r. unfold chat.
  destruct H as [->|H]; [done|].
  destruct dataframes; [done|]. by destruct (Agent_new (_ :: _) sandbox).
Qed.

End ConversationFacts.

(** ** The further properties on the concrete configuration *)

Section ConcreteFurther.
Import Example.

Lemma create_touches_only_its_dataset_witness :
  let st := (Example.create "acme/orders" None None None (Some orders_source)
               None false None None st0).2 in
  let p := "/srv/app/datasets/acme/orders/schema.yaml" in
  is_Some (fs st !! p)
  ∧ Path.parents "/srv/app/datasets/acme/sales"
    = ["/srv"; "/srv/app"; "/srv/app/datasets"; "/srv/app/datasets/acme"]
  ∧ fs (Example.create "acme/sales" (Some sales_df) None None None None false
          None None st).2 !! p
    = fs st !! p.
Proof.
  intros st p. split; [vm_compute; by eexists|]. split; [reflexivity|].
  apply (create_touches_only_its_dataset project_root sanitize_sql_table_name
           apply_transformation "acme/sales" (Some sales_df) None None None
           None false None None st "acme" "sales" p);
    [reflexivity|by vm_compute| |by vm_compute|right; by vm_compute].
  apply (bool_decide_unpack _). by vm_compute.
Defined.

Lemma create_keeps_other_objects_witness :
  heap (Example.create "acme/sales-view" None None None None
          (Some [orders_relation]) true None None st0).2 !! 0
  = Some sales_schema.
Proof.
  apply (create_keeps_other_objects project_root sanitize_sql_table_name
           apply_transformation "acme/sales-view" None None None None
           (Some [orders_relation]) true None None st0 0 sales_schema);
    [reflexivity|discriminate].
Defined.

Lemma create_failed_validation_overwrites_schema_witness :
  let r := Example.create "acme/sales" (Some sales_df) None
             (Some [category_dict; total_dict]) None None false None None
             st0 in
  r.1 = Raise (InvalidConfigError "group_by does not cover the plain columns")
  ∧ heap r.2 !! df_schema sales_df
    = Some (Schema.mk "sales" None (Some [category; total]) None None None
              None false)
  ∧ heap st0 !! df_schema sales_df = Some sales_schema.
Proof.
  intros r.
  destruct (create_failed_validation_overwrites_schema project_root
              sanitize_sql_table_name apply_transformation "acme/sales"
              "acme" "sales" st0 sales_df None
              (Some [category_dict; total_dict]) None None false None None
              None (Some [category; total]) sales_schema
              (InvalidConfigError "group_by does not cover the plain columns")
              eq_refl eq_refl eq_refl eq_refl eq_refl eq_refl)
    as (H1 & H2 & _).
  split_and!; [exact H1|exact H2|reflexivity].
Defined.

Lemma create_malformed_dict_before_schema_witness :
  let r := Example.create "acme/sales" (Some sales_df) None
             (Some [{[ "name" := VStr "category" ]}]) None None false None
             None st0 in
  is_ok r.1 = false
  ∧ heap r.2 = heap st0
  ∧ fs r.2 = fs_with_directory project_root st0 "acme" "sales".
Proof.
  apply (create_malformed_dict_before_schema project_root
           sanitize_sql_table_name apply_transformation "acme/sales" "acme"
           "sales" st0 (Some sales_df) None
           (Some [{[ "name" := VStr "category" ]}]) None None false None
           None); [reflexivity|reflexivity|right; by vm_compute].
Defined.

Lemma create_failure_allows_retry_witness :
  let st1 := (Example.create "acme/sales" None None None None None false None
                None st0).2 in
  already_exists project_root st1 "acme" "sales" = false
  ∧ (Example.create "acme/sales" (Some sales_df) None None None None false
       None None st1).1
    ≠ Raise (ValueError "Dataset already exists at path: acme/sales").
Proof.
  intros st1.
  destruct (create_failure_allows_retry project_root sanitize_sql_table_name
              apply_transformation "acme/sales" "acme" "sales" st0 None None
              None None None false None None eq_refl eq_refl)
    as (_ & H1 & H2).
  - left. by split_and!.
  - split; [exact H1|]. apply H2.
Defined.

Lemma conversation_never_lost_witness :
  ∃ a,
    ExampleAgent.run [FollowUp unit "and by region?"; Chat unit "" [] None]
      (ExampleAgent.chat "total sales?" [sales_df] None None).2
    = Some a
    ∧ ExampleAgent.follow_up "and by year?"
        (ExampleAgent.run [FollowUp unit "and by region?"; Chat unit "" [] None]
           (ExampleAgent.chat "total sales?" [sales_df] None None).2)
      = ((ExampleAgent.ask a "and by year?").1,
         Some (ExampleAgent.ask a "and by year?").2).
Proof.
  apply (conversation_never_lost ExampleAgent.Agent unit nat
           ExampleAgent.Agent_new ExampleAgent.ask ExampleAgent.ask
           "total sales?" [sales_df] None
           [FollowUp unit "and by region?"; Chat unit "" [] None] "and by year?"
           None ([sales_df], [])); [discriminate|reflexivity].
Defined.

Lemma conversation_needs_chat_witness :
  ExampleAgent.run [FollowUp unit "and by region?"; Chat unit "total?" [] None]
    None = None
  ∧ ExampleAgent.follow_up "and by year?"
      (ExampleAgent.run
         [FollowUp unit "and by region?"; Chat unit "total?" [] None] None)
    = (Raise (ValueError
                ("No existing conversation. "
                 +:+ "Please use chat() to start a new conversation.")),
       None).
Proof.
  apply (conversation_needs_chat ExampleAgent.Agent unit nat
           ExampleAgent.Agent_new ExampleAgent.ask ExampleAgent.ask
           [FollowUp unit "and by region?"; Chat unit "total?" [] None]
           "and by year?").
  repeat constructor.
Defined.

Lemma chat_starts_afresh_witness :
  ExampleAgent.chat "" [sales_df] None None
  = ExampleAgent.chat "" [sales_df] None (Some ([], ["total sales?"]))
  ∧ (ExampleAgent.chat "" [sales_df] None None).2 = Some ([sales_df], [""])
  ∧ is_ok (ExampleAgent.chat "" [sales_df] None None).1 = false.
Proof.
  destruct (chat_starts_afresh ExampleAgent.Agent unit nat
              ExampleAgent.Agent_new ExampleAgent.ask "" [sales_df] None
              ([sales_df], []) None (Some ([], ["total sales?"])))
    as [H1 H2]; [discriminate|reflexivity|].
  split_and!; [exact H1|exact H2|reflexivity].
Defined.

Lemma chat_refused_keeps_conversation_witness :
  let previous := Some ([sales_df], ["total sales?"]) in
  let r := ExampleAgent.chat "and by region?" [] None previous in
  is_ok r.1 = false
  ∧ r.2 = previous
  ∧ ExampleAgent.follow_up "and by year?" r.2
    = ExampleAgent.follow_up "and by year?" previous.
Proof.
  intros previous.
  apply (chat_refused_keeps_conversation ExampleAgent.Agent unit nat
           ExampleAgent.Agent_new ExampleAgent.ask ExampleAgent.ask
           "and by region?" [] None previous "and by year?").
  left. reflexivity.
Defined.

End ConcreteFurther.
